(** * beartype: hint registry, package scope cache and syntax tree rewriter

    A shallow embedding of

    - [beartype/claw/_clawpackagenames.py] (the package scope cache),
    - [beartype/claw/_clawast.py] (the syntax tree rewriter and the source
      metadata propagator),
    - [beartype/_decor/_typistry.py] (the hint registry) together with the
      importer of [beartype/_util/mod/utilmodule.py],

    followed by the properties established about them.  Python dictionaries
    are finite maps ([gmap]), Python exceptions are values of explicit error
    types, and code mutating a process-wide singleton is a function from the
    state before the call to the state after it. *)

From Stdlib Require Import ZArith String Ascii List Bool Lia.
From stdpp Require Import base option gmap strings list fin_maps pretty.

Set Warnings "-register-all".
Open Scope string_scope.

(* ===================================================================== *)
(** * Part I: the model                                                   *)
(* ===================================================================== *)

(** ** Python string primitives used by the sources *)

Module PyStr.

(** [s.split(sep)] for a one-character separator: never the empty list. *)
Fixpoint split (sep : ascii) (s : string) : list string :=
  match s with
  | EmptyString => [EmptyString]
  | String c rest =>
      if Ascii.eqb c sep then EmptyString :: split sep rest
      else match split sep rest with
           | [] => [String c EmptyString]
           | seg :: segs => String c seg :: segs
           end
  end.

(** Position of the last separator: [Some (head, tail)] when [s] holds
    the separator, [None] otherwise. *)
Fixpoint rfind_split (sep : ascii) (s : string) : option (string * string) :=
  match s with
  | EmptyString => None
  | String c rest =>
      match rfind_split sep rest with
      | Some (h, t) => Some (String c h, t)
      | None => if Ascii.eqb c sep then Some (EmptyString, rest) else None
      end
  end.

(** [s.rpartition(sep)]: the 3-tuple [(head, sep, tail)] split at the last
    separator, or [('', '', s)] when there is none. *)
Definition rpartition (sep : ascii) (s : string) : string * string * string :=
  match rfind_split sep s with
  | Some (h, t) => (h, String sep EmptyString, t)
  | None => (EmptyString, EmptyString, s)
  end.

(** [s.startswith(p)]. *)
Definition startswith (s p : string) : bool := String.prefix p s.

(** [n] copies of the character [c]. *)
Fixpoint repeat_char (c : ascii) (n : nat) : string :=
  match n with
  | O => EmptyString
  | S k => String c (repeat_char c k)
  end.

(** [repr(s)] of a string holding no quote, backslash or unprintable
    character (every key built by the registry is of that kind). *)
Definition repr (s : string) : string := "'" ++ s ++ "'".

(** [str(n)] of an integer, as interpolated by an f-string. *)
Definition of_int (n : Z) : string := pretty n.

(** A sample identifier syntax: letters, digits and underscores, not
    starting with a digit.  Used where an instance of the external
    validators is wanted. *)
Definition is_ident_start (c : ascii) : bool :=
  let n := nat_of_ascii c in
  (((65 <=? n) && (n <=? 90)) || ((97 <=? n) && (n <=? 122)) || (n =? 95))%nat.

Definition is_ident_char (c : ascii) : bool :=
  let n := nat_of_ascii c in
  is_ident_start c || ((48 <=? n) && (n <=? 57))%nat.

Fixpoint all_chars (p : ascii -> bool) (s : string) : bool :=
  match s with
  | EmptyString => true
  | String c rest => p c && all_chars p rest
  end.

(** The characters [repr] leaves as they are between single quotes:
    printable ASCII other than the quotes and the backslash.  On a string
    of such characters Python's [repr] is the function [repr] above. *)
Definition is_plain_char (c : ascii) : bool :=
  let n := nat_of_ascii c in
  ((32 <=? n) && (n <=? 126) && negb (n =? 34) && negb (n =? 39)
   && negb (n =? 92))%nat.

Definition is_basename (s : string) : bool :=
  match s with
  | EmptyString => false
  | String c rest => is_ident_start c && all_chars is_ident_char rest
  end.

(** One or more identifiers joined by dots. *)
Definition is_dotted_identifier (s : string) : bool :=
  forallb is_basename (split "." s).

(** Two or more identifiers joined by dots. *)
Definition is_dotted_attr_name (s : string) : bool :=
  is_dotted_identifier s && (1 <? length (split "." s))%nat.

End PyStr.

(** ** The package scope cache: [beartype/claw/_clawpackagenames.py] *)

Module ClawPackageNames.

(** [_PackageBasenameToSubpackagesDict]: a dictionary from basenames to
    dictionaries of the same class, with the slot [conf_if_registered]. *)
Inductive _PackageBasenameToSubpackagesDict (BeartypeConf : Type) : Type :=
  mk_PackageDict
    (conf_if_registered : option BeartypeConf)
    (subpackages : gmap string (_PackageBasenameToSubpackagesDict BeartypeConf)).
Arguments mk_PackageDict {BeartypeConf} _ _.

(** The three messages of [BeartypeClawRegistrationException] reachable
    with a configuration and strings as arguments. *)
Inductive BeartypeClawRegistrationException (BeartypeConf : Type) : Type :=
| PackageNamesEmpty
| PackageNameInvalid (package_name : string)
| PackageConfDiffers (package_name : string) (conf_curr conf : BeartypeConf).
Arguments PackageNamesEmpty {BeartypeConf}.
Arguments PackageNameInvalid {BeartypeConf} _.
Arguments PackageConfDiffers {BeartypeConf} _ _ _.

(** [package_names : Union[str, Iterable[str]]]: one name, a collection
    that can be iterated any number of times and is false when empty (a
    list, a tuple, a set), or a one-shot iterator (a generator), which is
    always true and yields its items to the first loop reading it only. *)
Inductive PackageNames : Type :=
| NameStr (package_name : string)
| NameIterable (package_names : list string)
| NameIterator (package_names : list string).

Section Cache.

(** Configurations are compared by identity ([is not]); the type
    [BeartypeConf] stands for the identities of configuration objects. *)
Context {BeartypeConf : Type} `{EqDecision BeartypeConf}.

(** External: [beartype._util.text.utiltextident.is_identifier]. *)
Variable is_identifier : string -> bool.

Local Abbreviation PackageDict :=
  (_PackageBasenameToSubpackagesDict BeartypeConf).
Local Abbreviation Exn := (BeartypeClawRegistrationException BeartypeConf).

Definition conf_if_registered (d : PackageDict) : option BeartypeConf :=
  match d with mk_PackageDict c _ => c end.

Definition subpackages (d : PackageDict) : gmap string PackageDict :=
  match d with mk_PackageDict _ m => m end.

(** [_PackageBasenameToSubpackagesDict()]. *)
Definition empty_PackageDict : PackageDict := mk_PackageDict None ∅.

(** [x is not None]. *)
Definition is_not_None {A} (x : option A) : bool :=
  match x with Some _ => true | None => false end.

(** The [for package_basename in package_basenames] loop of
    [is_package_registered].  [root] is the global
    [_package_basename_to_subpackages], [curr] the variable
    [package_basename_to_subpackages_curr].  The result is the value
    returned by the function once the loop is left. *)
Fixpoint is_package_registered_loop
    (root : PackageDict) (package_basenames : list string)
    (curr : PackageDict) : bool :=
  match package_basenames with
  | [] => false
  | package_basename :: rest =>
      match subpackages curr !! package_basename with
      | None => (* break *) false
      | Some package_subpackages =>
          if is_not_None (conf_if_registered root) then true
          else is_package_registered_loop root rest package_subpackages
      end
  end.

Definition is_package_registered
    (root : PackageDict) (package_name : string) : bool :=
  if is_not_None (conf_if_registered root) then true
  else is_package_registered_loop root (PyStr.split "." package_name) root.

(** [bool(_package_basename_to_subpackages)]: a dictionary is true when
    it holds a key. *)
Definition is_packages_registered_any (root : PackageDict) : bool :=
  negb (bool_decide (subpackages root = ∅)).

(** The registration of one name: the inner [for] loop descending from
    [curr] and creating absent subcaches, then the test of the terminal
    node.  The dictionaries are mutated in place; the result pairs the
    node after the mutation with the exception raised, if any. *)
Fixpoint register_package_basenames
    (package_name : string) (conf : BeartypeConf)
    (package_basenames : list string) (curr : PackageDict)
    : PackageDict * option Exn :=
  match package_basenames with
  | [] =>
      match conf_if_registered curr with
      | None => (mk_PackageDict (Some conf) (subpackages curr), None)
      | Some conf_curr =>
          if decide (conf_curr = conf) then (curr, None)
          else (curr, Some (PackageConfDiffers package_name conf_curr conf))
      end
  | package_basename :: rest =>
      let package_subpackages :=
        match subpackages curr !! package_basename with
        | None => empty_PackageDict
        | Some d => d
        end in
      let '(sub, raised) :=
        register_package_basenames package_name conf rest package_subpackages in
      (mk_PackageDict (conf_if_registered curr)
         (<[package_basename := sub]> (subpackages curr)), raised)
  end.

(** The outer registration loop over all names. *)
Fixpoint register_package_names
    (conf : BeartypeConf) (package_names : list string)
    (root : PackageDict) : PackageDict * option Exn :=
  match package_names with
  | [] => (root, None)
  | package_name :: rest =>
      match register_package_basenames package_name conf
              (PyStr.split "." package_name) root with
      | (root', Some e) => (root', Some e)
      | (root', None) => register_package_names conf rest root'
      end
  end.

(** The validation loop: the first name that is no identifier. *)
Fixpoint first_invalid_name (package_names : list string) : option string :=
  match package_names with
  | [] => None
  | package_name :: rest =>
      if is_identifier package_name then first_invalid_name rest
      else Some package_name
  end.

(** [not package_names], once a single name is wrapped in a 1-tuple. *)
Definition is_falsy (package_names : PackageNames) : bool :=
  match package_names with
  | NameIterable [] => true
  | _ => false
  end.

(** The names met by the validation loop, the first to read
    [package_names]. *)
Definition validated_names (package_names : PackageNames) : list string :=
  match package_names with
  | NameStr s => [s]
  | NameIterable l => l
  | NameIterator l => l
  end.

(** The names met by the registration loop, the second to read
    [package_names]: none when it is an iterator, exhausted by then. *)
Definition registered_names (package_names : PackageNames) : list string :=
  match package_names with
  | NameStr s => [s]
  | NameIterable l => l
  | NameIterator _ => []
  end.

Definition register_packages
    (package_names : PackageNames) (conf : BeartypeConf)
    (root : PackageDict) : PackageDict * option Exn :=
  if is_falsy package_names then (root, Some PackageNamesEmpty)
  else
    match first_invalid_name (validated_names package_names) with
    | Some bad => (root, Some (PackageNameInvalid bad))
    | None =>
        register_package_names conf (registered_names package_names) root
    end.

(** The node reached from [curr] along [package_basenames], if every
    segment is present. *)
Fixpoint node_at (package_basenames : list string) (curr : PackageDict)
    : option PackageDict :=
  match package_basenames with
  | [] => Some curr
  | b :: rest =>
      match subpackages curr !! b with
      | None => None
      | Some d => node_at rest d
      end
  end.

End Cache.

End ClawPackageNames.

(** ** The syntax tree rewriter: [beartype/claw/_clawast.py] *)

Module ClawAst.

(** The source code metadata of a node.  The grammar of [ast] gives every
    statement and expression the attributes [lineno] and [col_offset], and
    from Python 3.8 on the optional [end_lineno] and [end_col_offset]; an
    end attribute that is unset or [None] is [None] here. *)
Record loc : Type := mk_loc {
  lineno : Z;
  col_offset : Z;
  end_lineno : option Z;
  end_col_offset : option Z
}.

Inductive expr_context : Type := Load | Store | Del.

(** Expressions.  No expression holds a statement, and the transformer
    defines no visitor for an expression class: expressions are left as
    they are, so only the two classes the sources name are told apart. *)
Inductive expr : Type :=
| Str (s : string) (at_ : loc)
| Name (id : string) (ctx : expr_context) (at_ : loc)
| OtherExpr (at_ : loc).

Record arg : Type := mk_arg {
  arg_name : string;
  annotation : option expr;
  arg_loc : loc
}.

(** [ast.arguments], without the default values (expressions). *)
Record arguments : Type := mk_arguments {
  posonlyargs : list arg;
  args : list arg;
  vararg : option arg;
  kwonlyargs : list arg;
  kwarg : option arg
}.

Record alias : Type := mk_alias {
  alias_name : string;
  asname : option string
}.

(** Statements: the classes the sources name, the other statements that
    hold statements (a class, an asynchronous function, a conditional
    standing for the compound statements) and the simple ones. *)
Inductive stmt : Type :=
| FunctionDef (name : string) (fargs : arguments) (body : list stmt)
    (decorator_list : list expr) (returns : option expr) (at_ : loc)
| AsyncFunctionDef (name : string) (fargs : arguments) (body : list stmt)
    (decorator_list : list expr) (returns : option expr) (at_ : loc)
| ClassDef (name : string) (body : list stmt)
    (decorator_list : list expr) (at_ : loc)
| If (test : expr) (body orelse : list stmt) (at_ : loc)
| Expr (value : expr) (at_ : loc)
| ImportFrom (module : option string) (names : list alias) (at_ : loc)
| OtherStmt (at_ : loc).

(** [ast.Module].  The grammar gives a module node no position attribute:
    [module_loc] is [None] for every tree built by the parser, and [Some]
    only when a caller attached the four attributes to the object.  Trees
    are the ones the parser builds, up to that attachment: a module node
    given some of the four attributes only, and a statement built by hand
    without its position, are not represented. *)
Record ModuleNode : Type := mk_Module {
  module_body : list stmt;
  module_loc : option loc
}.

(** Reading an attribute an object does not have. *)
Inductive AttributeError : Type :=
| NoAttribute (attr : string).

(** [list.insert(i, x)], with the clamping of out-of-range indices. *)
Definition list_insert_at {A} (i : Z) (x : A) (l : list A) : list A :=
  let n := Z.of_nat (length l) in
  let i := if (i <? 0)%Z then (if (i + n <? 0)%Z then 0%Z else (i + n)%Z) else i in
  let i := if (n <? i)%Z then n else i in
  firstn (Z.to_nat i) l ++ x :: skipn (Z.to_nat i) l.

Section Transformer.

(** [beartype._util.py.utilpyversion.IS_PYTHON_AT_LEAST_3_8]. *)
Variable IS_PYTHON_AT_LEAST_3_8 : bool.

(** The four assignments of [_copy_node_code_metadata] onto a target
    node carrying no metadata yet. *)
Definition copy_loc (node_src : loc) : loc :=
  {| lineno := lineno node_src;
     col_offset := col_offset node_src;
     end_lineno :=
       if IS_PYTHON_AT_LEAST_3_8 then end_lineno node_src else None;
     end_col_offset :=
       if IS_PYTHON_AT_LEAST_3_8 then end_col_offset node_src else None |}.

(** [_copy_node_code_metadata(node_src, node_trg)], given the metadata
    of the source node ([None]: the node has no such attributes, and
    reading [node_src.lineno] raises) and returning the metadata of the
    target node. *)
Definition _copy_node_code_metadata (node_src : option loc)
    : AttributeError + loc :=
  match node_src with
  | None => inl (NoAttribute "lineno")
  | Some l => inr (copy_loc l)
  end.

(** [isinstance(module_child, Expr) and isinstance(module_child.value, Str)]. *)
Definition is_docstring (module_child : stmt) : bool :=
  match module_child with
  | Expr (Str _ _) _ => true
  | _ => false
  end.

(** [isinstance(module_child, ImportFrom) and
    module_child.module == '__future__']. *)
Definition is_future_import (module_child : stmt) : bool :=
  match module_child with
  | ImportFrom (Some m) _ _ => bool_decide (m = "__future__")
  | _ => false
  end.

(** The [for import_beartype_index, module_child in enumerate(node.body)]
    loop of [visit_Module]: [i] is the index of the next item, the two
    other arguments the current values of the loop variables
    ([module_child] is [None] while it is still the module node). *)
Fixpoint visit_Module_loop (i : Z) (import_beartype_index : Z)
    (module_child : option stmt) (body : list stmt) : Z * option stmt :=
  match body with
  | [] => (import_beartype_index, module_child)
  | child :: rest =>
      if is_docstring child || is_future_import child
      then (* continue *)
        visit_Module_loop (i + 1) i (Some child) rest
      else (* end of the loop body *)
        visit_Module_loop (i + 1) i (Some child) rest
  end.

(** The [for arg in node.args.args] loop of [visit_FunctionDef]. *)
Fixpoint is_args_typed_loop (l : list arg) : bool :=
  match l with
  | [] => false
  | a :: rest =>
      match annotation a with
      | Some _ => (* break *) true
      | None => is_args_typed_loop rest
      end
  end.

(** [bool(node.returns)]: a node is true, [None] is false. *)
Definition bool_of_node {A} (x : option A) : bool :=
  match x with Some _ => true | None => false end.

(** The decorator list of a function definition after the test and the
    [append] of [visit_FunctionDef]. *)
Definition decorate (fargs : arguments) (decorator_list : list expr)
    (returns : option expr) (at_ : loc) : list expr :=
  let is_return_typed := bool_of_node returns in
  let is_args_typed :=
    if negb is_return_typed then is_args_typed_loop (args fargs)
    else false in
  if is_return_typed || is_args_typed then
    decorator_list ++ [Name "beartype_object_safe" Load (copy_loc at_)]
  else decorator_list.

(** [NodeTransformer.visit] on a statement: [visit_FunctionDef] for a
    function definition, [generic_visit] (the children visited in
    place) for every other class. *)
Fixpoint visit (node : stmt) : stmt :=
  match node with
  | FunctionDef name fargs body decorator_list returns l =>
      FunctionDef name fargs (List.map visit body)
        (decorate fargs decorator_list returns l) returns l
  | AsyncFunctionDef name fargs body decorator_list returns l =>
      AsyncFunctionDef name fargs (List.map visit body)
        decorator_list returns l
  | ClassDef name body decorator_list l =>
      ClassDef name (List.map visit body) decorator_list l
  | If test body orelse l =>
      If test (List.map visit body) (List.map visit orelse) l
  | Expr _ _ | ImportFrom _ _ _ | OtherStmt _ => node
  end.

(** The import statement synthesized by [visit_Module]. *)
Definition import_beartype (at_ : loc) : stmt :=
  ImportFrom (Some "beartype._decor.decorcore")
    [mk_alias "beartype_object_safe" None] at_.

Definition visit_Module (node : ModuleNode) : AttributeError + ModuleNode :=
  let '(import_beartype_index, module_child) :=
    visit_Module_loop 0 (-1) None (module_body node) in
  if negb (import_beartype_index =? -1)%Z then
    match _copy_node_code_metadata (module_loc node) with
    | inl e => inl e
    | inr l =>
        inr (mk_Module
               (List.map visit
                  (list_insert_at import_beartype_index (import_beartype l)
                     (module_body node)))
               (module_loc node))
    end
  else
    inr (mk_Module (List.map visit (module_body node)) (module_loc node)).

End Transformer.

End ClawAst.

(** ** The hint registry: [beartype/_decor/_typistry.py] *)

Module Typistry.

(** A class object, identified by the module declaring it and its name. *)
Record pyclass : Type := mk_class {
  cls_module : string;
  cls_qualname : string
}.

(** The Python objects the registry meets. *)
Inductive pyobj : Type :=
| PyNone
| PyStr (s : string)
| PyInt (n : Z)
| PyType (c : pyclass)
| PyTuple (items : list pyobj).

(** Why a forward reference or module attribute could not be imported. *)
Inductive import_failure : Type :=
| AttrNameInvalid
| ModuleNotFound (module_name : string)
| AttrNotFound (module_attr_name : string)
| AttrNotClass (module_attr_name : string) (value : pyobj).

(** The [raise] statements of [Beartypistry.__setitem__] and of the
    registrars. *)
Inductive beartypistry_failure : Type :=
| KeyNotString (hint_name : pyobj)
| KeyAlreadyRegistered (hint_name : string) (prior hint : pyobj)
| KeyNotClassname (hint_name hint_clsname : string)
| TupleNotNonPep (hint : pyobj)
| KeyNotTuplePrefixed (hint_name : string)
| ValueNotTypeOrTuple (hint_name : string) (hint : pyobj)
| HintNotTuple (hint : pyobj)
| HintNotClass (hint : pyobj).

(** Exceptions, by class.  [ModuleScopeException] is whatever the code of
    an imported module raises; [ValueError] is raised by
    [importlib.import_module] on the empty module name. *)
Inductive exn : Type :=
| _BeartypeDecorBeartypistryException (why : beartypistry_failure)
| BeartypeDecorHintForwardRefException (why : import_failure)
| BeartypeCallHintForwardRefException (why : import_failure)
| ValueError
| ModuleScopeException (raised : string).

(** What [importlib.import_module] finds under a module name.  A name
    without an entry is the name of no module.  The other cases:

    - [Unimportable raised]: a module whose code raises, while it is
      imported, an exception that is no [ModuleNotFoundError]; [raised]
      describes the exception;
    - [MissingDependency]: a module whose code raises a
      [ModuleNotFoundError], as when it imports a module that does not
      exist; the [except] clause of [import_module] catches it like the
      one raised for a module that is not there;
    - [Importable attrs]: a module imported without an exception, with its
      attributes, and whose code registers no hint while it runs. *)
Inductive module_entry : Type :=
| Unimportable (raised : string)
| Importable (attrs : gmap string pyobj)
| MissingDependency.

(** The modules importable at some moment of the process. *)
Definition world : Type := gmap string module_entry.

(** The process-wide state: the singleton [bear_typistry] and the names
    passed so far to [importlib.import_module], oldest first. *)
Record state : Type := mk_state {
  bear_typistry : gmap string pyobj;
  imported : list string
}.

(** How a forward reference stands in a world: it names a class, it names
    none (no module of that name, no such attribute in the module, or an
    attribute that is no class), or the code of its module raises while the
    module is imported (or [importlib] does, on an empty module name). *)
Inductive resolution : Type :=
| ResolvesTo (c : pyclass)
| Unresolvable
| ImportRaises.

Definition resolution_of (w : world) (module_attr_name : string) : resolution :=
  let '(module_name, _, module_attr_basename) :=
    PyStr.rpartition "." module_attr_name in
  if bool_decide (module_name = "") then ImportRaises
  else
    match w !! module_name with
    | None => Unresolvable
    | Some (Unimportable _) | Some MissingDependency => ImportRaises
    | Some (Importable attrs) =>
        match attrs !! module_attr_basename with
        | Some (PyType c) => ResolvesTo c
        | _ => Unresolvable
        end
    end.

(** The state after one more call of [importlib.import_module]. *)
Definition logged (module_name : string) (st : state) : state :=
  mk_state (bear_typistry st) (imported st ++ [module_name]).

(** [n] marker characters, as appended by the disambiguation loop. *)
Definition tildes (n : nat) : string := PyStr.repeat_char "~" n.

Definition _TYPISTRY_HINT_NAME_TUPLE_PREFIX : string := "+".
Definition _CODE_TYPISTRY_HINT_NAME_TO_HINT_SUFFIX : string := "]".

Section Registry.

(** External collaborators, none of them under the sources at hand. *)

(** [beartype._decor._code.codesnip.PARAM_NAME_TYPISTRY]. *)
Variable PARAM_NAME_TYPISTRY : string.
(** [die_unless_module_attr_name] raises unless this test holds. *)
Variable is_module_attr_name : string -> bool.
(** [beartype._util.utilobject.get_object_classname], on classes. *)
Variable get_object_classname : pyclass -> string.
(** [beartype._util.utilobject.get_object_class_basename]. *)
Variable get_object_class_basename : pyclass -> string.
(** [beartype._util.utilclass.is_class_builtin]. *)
Variable is_class_builtin : pyclass -> bool.
(** [beartype._util.utilclass.is_classname_builtin]. *)
Variable is_classname_builtin : string -> bool.
(** Whether an object is a plain class, as opposed to a generic or
    otherwise PEP-compliant hint. *)
Variable is_plain_class : pyobj -> bool.
(** [hash(hint)] of a tuple. *)
Variable py_hash : list pyobj -> Z.
(** [tuple(set(hint))]: the items without duplicates, in the order of
    iteration of the set. *)
Variable tuple_of_set : list pyobj -> list pyobj.

Definition _CODE_TYPISTRY_HINT_NAME_TO_HINT_PREFIX : string :=
  PARAM_NAME_TYPISTRY ++ "[".

(** The expression returned by the three registrars for a key. *)
Definition hint_expr (hint_name : string) : string :=
  _CODE_TYPISTRY_HINT_NAME_TO_HINT_PREFIX ++ PyStr.repr hint_name
    ++ _CODE_TYPISTRY_HINT_NAME_TO_HINT_SUFFIX.

(** Modelled from the spec: [die_unless_hint_nonpep] on a tuple, absent
    from the sources.  The specification has the guard require that
    every element of the tuple be a plain class. *)
Definition is_hint_nonpep_tuple (items : list pyobj) : bool :=
  forallb is_plain_class items.

(** *** [Beartypistry.__setitem__] *)

Definition __setitem__ (self : gmap string pyobj)
    (hint_name : pyobj) (hint : pyobj) : exn + gmap string pyobj :=
  match hint_name with
  | PyStr name =>
      match self !! name with
      | Some prior =>
          inl (_BeartypeDecorBeartypistryException
                 (KeyAlreadyRegistered name prior hint))
      | None =>
          match hint with
          | PyType c =>
              let hint_clsname := get_object_classname c in
              if negb (bool_decide (name = hint_clsname))
                 && negb (is_classname_builtin hint_clsname)
              then inl (_BeartypeDecorBeartypistryException
                          (KeyNotClassname name hint_clsname))
              else inr (<[name := hint]> self)
          | PyTuple items =>
              if negb (is_hint_nonpep_tuple items)
              then inl (_BeartypeDecorBeartypistryException
                          (TupleNotNonPep hint))
              else if negb (PyStr.startswith name
                              _TYPISTRY_HINT_NAME_TUPLE_PREFIX)
              then inl (_BeartypeDecorBeartypistryException
                          (KeyNotTuplePrefixed name))
              else inr (<[name := hint]> self)
          | _ =>
              inl (_BeartypeDecorBeartypistryException
                     (ValueNotTypeOrTuple name hint))
          end
      end
  | _ => inl (_BeartypeDecorBeartypistryException (KeyNotString hint_name))
  end.

(** The conditions under which an insertion is refused, with the exemption
    of built-in classes left open: [exempt name c] tells whether the key
    [name] may differ from the name of the class [c]. *)
Definition rejected (exempt : string -> pyclass -> bool)
    (self : gmap string pyobj) (hint_name hint : pyobj) : Prop :=
  (forall name, hint_name <> PyStr name)
  \/ (exists name, hint_name = PyStr name /\ is_Some (self !! name))
  \/ (exists c, hint = PyType c
               /\ hint_name <> PyStr (get_object_classname c)
               /\ forall name, hint_name = PyStr name -> exempt name c = false)
  \/ (exists items, hint = PyTuple items
        /\ ((forall name, hint_name = PyStr name ->
               PyStr.startswith name _TYPISTRY_HINT_NAME_TUPLE_PREFIX = false)
            \/ is_hint_nonpep_tuple items = false))
  \/ ((forall c, hint <> PyType c) /\ (forall items, hint <> PyTuple items)).

(** The exemption as the guard decides it: on the name of the class. *)
Definition exempt_by_classname (name : string) (c : pyclass) : bool :=
  is_classname_builtin (get_object_classname c).

(** *** The importer of [beartype/_util/mod/utilmodule.py]

    The registry imports [import_module_attr] under an older module path
    and passes its label under an older keyword; labels only appear in the
    messages of exceptions. *)

(** [import_module]: the call of [importlib.import_module] is logged. *)
Definition import_module (w : world) (exception_cls : import_failure -> exn)
    (module_name : string) (st : state)
    : state * (exn + gmap string pyobj) :=
  let st' := logged module_name st in
  if bool_decide (module_name = "") then (st', inl ValueError)
  else
    match w !! module_name with
    | None => (st', inl (exception_cls (ModuleNotFound module_name)))
    | Some (Unimportable raised) => (st', inl (ModuleScopeException raised))
    | Some MissingDependency =>
        (st', inl (exception_cls (ModuleNotFound module_name)))
    | Some (Importable attrs) => (st', inr attrs)
    end.

(** [getattr(module, module_attr_basename, None)]. *)
Definition getattr_or_None (attrs : gmap string pyobj) (basename : string)
    : pyobj :=
  match attrs !! basename with
  | Some v => v
  | None => PyNone
  end.

Definition import_module_attr_or_none (w : world)
    (exception_cls : import_failure -> exn)
    (module_attr_name : string) (st : state) : state * (exn + pyobj) :=
  if negb (is_module_attr_name module_attr_name)
  then (st, inl (exception_cls AttrNameInvalid))
  else
    let '(module_name, _, module_attr_basename) :=
      PyStr.rpartition "." module_attr_name in
    match import_module w exception_cls module_name st with
    | (st', inl e) => (st', inl e)
    | (st', inr attrs) =>
        (st', inr (getattr_or_None attrs module_attr_basename))
    end.

Definition import_module_attr (w : world)
    (exception_cls : import_failure -> exn)
    (module_attr_name : string) (st : state) : state * (exn + pyobj) :=
  match import_module_attr_or_none w exception_cls module_attr_name st with
  | (st', inl e) => (st', inl e)
  | (st', inr PyNone) =>
      (st', inl (exception_cls (AttrNotFound module_attr_name)))
  | (st', inr module_attr) => (st', inr module_attr)
  end.

(** *** [Beartypistry.__missing__] and the lookup [bear_typistry[key]] *)

Definition __missing__ (w : world) (hint_classname : string) (st : state)
    : state * (exn + pyobj) :=
  match import_module_attr w BeartypeCallHintForwardRefException
          hint_classname st with
  | (st', inl e) => (st', inl e)
  | (st', inr (PyType c)) => (st', inr (PyType c))
  | (st', inr hint_class) =>
      (st', inl (BeartypeCallHintForwardRefException
                   (AttrNotClass hint_classname hint_class)))
  end.

(** [dict.__getitem__] of a subclass defining [__missing__]: the value
    under a key present, the result of [__missing__(key)] otherwise.
    The dictionary is not written to. *)
Definition __getitem__ (w : world) (key : string) (st : state)
    : state * (exn + pyobj) :=
  match bear_typistry st !! key with
  | Some v => (st, inr v)
  | None => __missing__ w key st
  end.

(** *** The registrars (the bodies under [@callable_cached]) *)

Definition register_typistry_forwardref (hint_classname : string)
    (st : state) : state * (exn + string) :=
  if negb (is_module_attr_name hint_classname)
  then (st, inl (BeartypeDecorHintForwardRefException AttrNameInvalid))
  else (st, inr (hint_expr hint_classname)).

Definition register_typistry_type (hint : pyobj) (st : state)
    : state * (exn + string) :=
  match hint with
  | PyType c =>
      if is_class_builtin c then (st, inr (get_object_class_basename c))
      else
        let hint_classname := get_object_classname c in
        match __setitem__ (bear_typistry st) (PyStr hint_classname) hint with
        | inl e => (st, inl e)
        | inr d => (mk_state d (imported st), inr (hint_expr hint_classname))
        end
  | _ => (st, inl (_BeartypeDecorBeartypistryException (HintNotClass hint)))
  end.

(** The loop [while hint_name in bear_typistry: hint_name += '~'], run
    for at most [fuel] tests of its condition: [None] when the loop is
    still running by then. *)
Fixpoint disambiguate (fuel : nat) (self : gmap string pyobj)
    (hint_name : string) : option string :=
  match fuel with
  | O => None
  | S fuel' =>
      match self !! hint_name with
      | Some _ => disambiguate fuel' self (hint_name ++ "~")
      | None => Some hint_name
      end
  end.

(** [register_typistry_tuple], its loop given [fuel]. *)
Definition register_typistry_tuple (fuel : nat) (hint : pyobj)
    (is_types_unique : bool) (st : state)
    : option (state * (exn + string)) :=
  match hint with
  | PyTuple [item] => Some (register_typistry_type item st)
  | PyTuple items =>
      let items := if negb is_types_unique then tuple_of_set items
                   else items in
      let hint_name :=
        _TYPISTRY_HINT_NAME_TUPLE_PREFIX ++ PyStr.of_int (py_hash items) in
      match disambiguate fuel (bear_typistry st) hint_name with
      | None => None
      | Some hint_name =>
          match __setitem__ (bear_typistry st) (PyStr hint_name)
                  (PyTuple items) with
          | inl e => Some (st, inl e)
          | inr d =>
              Some (mk_state d (imported st), inr (hint_expr hint_name))
          end
      end
  | _ => Some (st, inl (_BeartypeDecorBeartypistryException
                          (HintNotTuple hint)))
  end.

(** Fuel enough for the loop of [register_typistry_tuple] in a state. *)
Definition enough_fuel (st : state) : nat := S (size (bear_typistry st)).

End Registry.

End Typistry.

(** ** Sample collaborators

    Instances of the external collaborators of the registry, and a world,
    on which the registry can be run. *)

Module Sample.

Import Typistry.

Definition PARAM_NAME_TYPISTRY : string := "__beartypistry".

Definition get_object_classname (c : pyclass) : string :=
  cls_module c ++ "." ++ cls_qualname c.

Definition get_object_class_basename (c : pyclass) : string := cls_qualname c.

Definition is_class_builtin (c : pyclass) : bool :=
  bool_decide (cls_module c = "builtins").

Definition is_classname_builtin (classname : string) : bool :=
  PyStr.startswith classname "builtins.".

Definition is_plain_class (obj : pyobj) : bool :=
  match obj with
  | PyType _ => true
  | _ => false
  end.

(** A hash under which all tuples collide. *)
Definition py_hash (items : list pyobj) : Z := 42.

(** Tuples without duplicates come back from the set as they went in. *)
Definition tuple_of_set (items : list pyobj) : list pyobj := items.

Definition class_C : pyclass := mk_class "mymod" "C".
Definition class_D : pyclass := mk_class "mymod" "D".
Definition class_E : pyclass := mk_class "mymod" "E".
Definition class_int : pyclass := mk_class "builtins" "int".

(** A world without the module [mymod], and one where it defines [C]. *)
Definition world_before : world := ∅.
Definition world_after : world :=
  {[ "mymod" := Importable {[ "C" := PyType class_C ]} ]}.

Definition state0 : state := mk_state ∅ [].

Definition __setitem__ :=
  Typistry.__setitem__ get_object_classname is_classname_builtin is_plain_class.

Definition __getitem__ := Typistry.__getitem__ PyStr.is_dotted_attr_name.

Definition register_typistry_forwardref :=
  Typistry.register_typistry_forwardref PARAM_NAME_TYPISTRY
    PyStr.is_dotted_attr_name.

Definition register_typistry_tuple :=
  Typistry.register_typistry_tuple PARAM_NAME_TYPISTRY get_object_classname
    get_object_class_basename is_class_builtin is_classname_builtin
    is_plain_class py_hash tuple_of_set.

Definition hint_expr := Typistry.hint_expr PARAM_NAME_TYPISTRY.

End Sample.

(** ** Measures on syntax trees

    Functions over trees in which the effect of the rewriter is stated. *)

Module ClawAstMeasures.

Import ClawAst.

(** A function definition is typed when it has a return annotation or one
    of the parameters of [args.args] has an annotation. *)
Definition is_typed (fargs : arguments) (returns : option expr) : bool :=
  bool_of_node returns
  || existsb (fun a => bool_of_node (annotation a)) (args fargs).

(** The statement with the last decorator of every typed synchronous
    function definition taken away, at any depth. *)
Fixpoint undecorate (s : stmt) : stmt :=
  match s with
  | FunctionDef name fargs body decorator_list returns l =>
      FunctionDef name fargs (List.map undecorate body)
        (if is_typed fargs returns then removelast decorator_list
         else decorator_list)
        returns l
  | AsyncFunctionDef name fargs body decorator_list returns l =>
      AsyncFunctionDef name fargs (List.map undecorate body)
        decorator_list returns l
  | ClassDef name body decorator_list l =>
      ClassDef name (List.map undecorate body) decorator_list l
  | If test body orelse l =>
      If test (List.map undecorate body) (List.map undecorate orelse) l
  | Expr _ _ | ImportFrom _ _ _ | OtherStmt _ => s
  end.

End ClawAstMeasures.

(** ** Well-formed registries *)

Module TypistryInvariants.

Import Typistry.

Section Invariants.

Variable get_object_classname : pyclass -> string.
Variable is_classname_builtin : string -> bool.
Variable is_plain_class : pyobj -> bool.

(** An entry as the guard of insertions lets it in: a class under its own
    name (or any class with the name of a built-in one), or a tuple of
    plain classes under a key with the tuple prefix. *)
Definition entry_ok (hint_name : string) (hint : pyobj) : Prop :=
  (exists c, hint = PyType c
             /\ (hint_name = get_object_classname c
                 \/ is_classname_builtin (get_object_classname c) = true))
  \/ (exists items, hint = PyTuple items
        /\ PyStr.startswith hint_name _TYPISTRY_HINT_NAME_TUPLE_PREFIX = true
        /\ is_hint_nonpep_tuple is_plain_class items = true).

Definition registry_ok (self : gmap string pyobj) : Prop :=
  forall hint_name hint, self !! hint_name = Some hint -> entry_ok hint_name hint.

End Invariants.

End TypistryInvariants.

(** ** Labels: [beartype/_util/text/utiltextlabel.py] *)

Module TextLabel.

(** The double quote character of the format strings. *)
Definition dquote : string := String (ascii_of_nat 34) EmptyString.

Section Labels.

(** External: [beartype._util.text.utiltextmunge.trim_object_repr], on
    values of any type [object_]. *)
Context {object_ : Type}.
Variable trim_object_repr : object_ -> string.

(** The labellers take the decorated callable and read its [__name__]
    only: [func_name] stands for [func.__name__]. *)
Definition label_callable_decorated (func_name : string) : string :=
  ("@beartyped " ++ func_name ++ "()")%string.

Definition label_callable_decorated_param
    (func_name param_name : string) : string :=
  (label_callable_decorated func_name ++ " parameter " ++ dquote
     ++ param_name ++ dquote)%string.

Definition label_callable_decorated_param_value
    (func_name param_name : string) (param_value : object_) : string :=
  (label_callable_decorated func_name ++ " parameter " ++ param_name ++ "="
     ++ trim_object_repr param_value)%string.

Definition label_callable_decorated_return (func_name : string) : string :=
  (label_callable_decorated func_name ++ " return")%string.

Definition label_callable_decorated_return_value
    (func_name : string) (return_value : object_) : string :=
  (label_callable_decorated_return func_name ++ " "
     ++ trim_object_repr return_value)%string.

End Labels.

End TextLabel.

(* ===================================================================== *)
(** * Part II: the properties                                             *)
(* ===================================================================== *)

Open Scope list_scope.

(** ** String primitives *)

Example split_dotted : PyStr.split "." "pkg.sub.mod" = ["pkg"; "sub"; "mod"].
Proof. reflexivity. Qed.

Example split_edges :
  PyStr.split "." "" = [""] /\ PyStr.split "." "a." = ["a"; ""]
  /\ PyStr.split "." ".a" = [""; "a"].
Proof. repeat split. Qed.

Example rpartition_dotted :
  PyStr.rpartition "." "pkg.sub.C" = ("pkg.sub", ".", "C")
  /\ PyStr.rpartition "." "C" = ("", "", "C").
Proof. split; reflexivity. Qed.

Example of_int_signed :
  PyStr.of_int 0 = "0" /\ PyStr.of_int 1234 = "1234"
  /\ PyStr.of_int (-56) = "-56".
Proof. repeat split. Qed.

Lemma split_not_nil (sep : ascii) (s : string) : PyStr.split sep s <> [].
Proof.
  induction s as [|c s IH]; simpl; [discriminate|].
  destruct (Ascii.eqb c sep); [discriminate|].
  destruct (PyStr.split sep s); discriminate.
Qed.

Lemma str_app_cons (c : ascii) (a b : string) :
  (String c a ++ b)%string = String c (a ++ b).
Proof. reflexivity. Qed.

Lemma str_app_nil_r (s : string) : (s ++ "")%string = s.
Proof.
  induction s as [|c s IH]; [reflexivity|].
  now rewrite str_app_cons, IH.
Qed.

Lemma str_app_assoc (a b c : string) :
  ((a ++ b) ++ c)%string = (a ++ (b ++ c))%string.
Proof.
  induction a as [|x a IH]; [reflexivity|].
  now rewrite !str_app_cons, IH.
Qed.

Lemma str_length_app (a b : string) :
  String.length (a ++ b) = String.length a + String.length b.
Proof.
  induction a as [|x a IH]; [reflexivity|].
  rewrite str_app_cons. simpl. now rewrite IH.
Qed.

Lemma list_ascii_of_string_app (a b : string) :
  list_ascii_of_string (a ++ b)
  = list_ascii_of_string a ++ list_ascii_of_string b.
Proof.
  induction a as [|x a IH]; [reflexivity|].
  rewrite str_app_cons. simpl. now rewrite IH.
Qed.

(** A common suffix can be cancelled. *)
Lemma str_app_inv_tail (a b t : string) :
  (a ++ t)%string = (b ++ t)%string -> a = b.
Proof.
  intros E.
  apply (f_equal list_ascii_of_string) in E.
  rewrite !list_ascii_of_string_app in E.
  apply app_inv_tail in E.
  apply (f_equal string_of_list_ascii) in E.
  now rewrite !string_of_list_ascii_of_string in E.
Qed.

Lemma startswith_cons (c : ascii) (s : string) :
  PyStr.startswith (String c s) (String c "") = true.
Proof.
  unfold PyStr.startswith; simpl.
  destruct (ascii_dec c c) as [_|NE]; [|now destruct NE].
  destruct s; reflexivity.
Qed.

Lemma repeat_char_length (c : ascii) (n : nat) :
  String.length (PyStr.repeat_char c n) = n.
Proof. induction n as [|n IH]; cbn; [reflexivity | now rewrite IH]. Qed.

(** ** The package scope cache *)

Section ClawPackageNamesFacts.

Import ClawPackageNames.

Context {BeartypeConf : Type} `{EqDecision BeartypeConf}.
Variable is_identifier : string -> bool.

Local Abbreviation PackageDict :=
  (_PackageBasenameToSubpackagesDict BeartypeConf).

Lemma PackageDict_eta (d : PackageDict) :
  mk_PackageDict (conf_if_registered d) (subpackages d) = d.
Proof. destruct d; reflexivity. Qed.

(** With no configuration on the root, the loop of the query never
    answers true: its test reads the slot of the root at every node. *)
Lemma is_package_registered_loop_root_None
    (root : PackageDict) (package_basenames : list string) :
  conf_if_registered root = None ->
  forall curr,
    is_package_registered_loop root package_basenames curr = false.
Proof.
  intros Hroot.
  induction package_basenames as [|b rest IH]; intros curr; simpl.
  - reflexivity.
  - destruct (subpackages curr !! b) as [sub|]; [|reflexivity].
    rewrite Hroot; simpl. apply IH.
Qed.

(** The query is decided by the root alone. *)
Lemma is_package_registered_root (root : PackageDict) (package_name : string) :
  is_package_registered root package_name
  = is_not_None (conf_if_registered root).
Proof.
  unfold is_package_registered.
  destruct (conf_if_registered root) eqn:Hroot; simpl; [reflexivity|].
  now apply is_package_registered_loop_root_None.
Qed.

(** Registering along a non-empty path leaves the slot of the node the
    path starts from as it was. *)
Lemma register_package_basenames_conf
    (package_name : string) (conf : BeartypeConf)
    (b : string) (rest : list string) (curr : PackageDict) :
  conf_if_registered
    (fst (register_package_basenames package_name conf (b :: rest) curr))
  = conf_if_registered curr.
Proof.
  simpl.
  destruct (register_package_basenames package_name conf rest _) as [sub r].
  reflexivity.
Qed.

(** Registering a path that is absent creates it, and configures its
    terminal node only. *)
Lemma register_package_basenames_fresh
    (package_name : string) (conf : BeartypeConf) (bs : list string) :
  forall curr : PackageDict,
    conf_if_registered curr = None ->
    (forall b rest, bs = b :: rest -> subpackages curr !! b = None) ->
    exists curr',
      register_package_basenames package_name conf bs curr = (curr', None)
      /\ node_at bs curr'
         = Some (mk_PackageDict (Some conf)
                   (match bs with [] => subpackages curr | _ => ∅ end)).
Proof.
  induction bs as [|b rest IH]; intros curr Hconf Hfresh; simpl.
  - rewrite Hconf. eexists; split; reflexivity.
  - rewrite (Hfresh b rest eq_refl).
    destruct (IH empty_PackageDict) as (sub & Hreg & Hnode);
      [reflexivity | intros; apply lookup_empty |].
    rewrite Hreg. eexists; split; [reflexivity|].
    simpl. rewrite lookup_insert_eq. rewrite Hnode.
    destruct rest; reflexivity.
Qed.

(** Registering a path whose terminal node is configured changes nothing
    in the cache, and raises exactly when the configurations differ. *)
Lemma register_package_basenames_configured
    (package_name : string) (conf conf_curr : BeartypeConf)
    (bs : list string) :
  forall curr node : PackageDict,
    node_at bs curr = Some node ->
    conf_if_registered node = Some conf_curr ->
    register_package_basenames package_name conf bs curr
    = (curr, if decide (conf_curr = conf) then None
             else Some (PackageConfDiffers package_name conf_curr conf)).
Proof.
  induction bs as [|b rest IH]; intros curr node Hnode Hconf; simpl in *.
  - injection Hnode as ->. rewrite Hconf.
    destruct (decide (conf_curr = conf)); reflexivity.
  - destruct (subpackages curr !! b) as [sub|] eqn:Hsub; [|discriminate].
    rewrite (IH sub node Hnode Hconf).
    rewrite (insert_id _ _ _ Hsub), PackageDict_eta. reflexivity.
Qed.

(** C2 (code at the failing input).  Claim: after registering "pkg.sub"
    with a configuration, the query is true for "pkg.sub.mod" and false
    for "pkg.other" and "pkg".  The code: the registration succeeds and
    configures the node of "pkg.sub", yet the query answers false for
    "pkg.sub.mod", and for "pkg.sub" itself, because the loop tests the
    slot of the root cache and not the slot of the node it visits. *)
Theorem is_package_registered_misses_registered_package (C : BeartypeConf) :
  is_identifier "pkg.sub" = true ->
  exists cache : PackageDict,
    register_packages is_identifier (NameStr "pkg.sub") C empty_PackageDict
    = (cache, None)
    /\ node_at ["pkg"; "sub"] cache = Some (mk_PackageDict (Some C) ∅)
    /\ is_package_registered cache "pkg.sub.mod" = false
    /\ is_package_registered cache "pkg.sub" = false
    /\ is_package_registered cache "pkg.other" = false
    /\ is_package_registered cache "pkg" = false.
Proof.
  intros Hid.
  destruct (register_package_basenames_fresh "pkg.sub" C ["pkg"; "sub"]
              empty_PackageDict) as (cache & Hreg & Hnode);
    [reflexivity | intros; apply lookup_empty |].
  exists cache.
  assert (Hroot : conf_if_registered cache = None).
  { pose proof (register_package_basenames_conf "pkg.sub" C "pkg" ["sub"]
                  empty_PackageDict) as E.
    rewrite Hreg in E. exact E. }
  split.
  - unfold register_packages.
      cbn [is_falsy validated_names registered_names first_invalid_name].
      rewrite Hid.
    cbn [register_package_names].
    change (PyStr.split "." "pkg.sub") with ["pkg"; "sub"].
    rewrite Hreg. reflexivity.
  - split; [exact Hnode|].
    rewrite !is_package_registered_root, Hroot. auto.
Qed.

(** C5.  For a valid name whose terminal node carries the configuration
    [conf_curr], registering the name again leaves the cache as it is; the
    call returns silently when the configuration passed is [conf_curr] and
    raises the exception naming both configurations otherwise. *)
Theorem register_packages_configured
    (root node : PackageDict) (package_name : string)
    (conf_curr conf : BeartypeConf) :
  is_identifier package_name = true ->
  node_at (PyStr.split "." package_name) root = Some node ->
  conf_if_registered node = Some conf_curr ->
  register_packages is_identifier (NameStr package_name) conf root
  = (root, if decide (conf_curr = conf) then None
           else Some (PackageConfDiffers package_name conf_curr conf)).
Proof.
  intros Hid Hnode Hconf.
  unfold register_packages.
      cbn [is_falsy validated_names registered_names first_invalid_name].
      rewrite Hid.
  cbn [register_package_names].
  rewrite (register_package_basenames_configured _ _ _ _ _ _ Hnode Hconf).
  destruct (decide (conf_curr = conf)); reflexivity.
Qed.

(** C10.  A root cache carrying a configuration and holding no key
    answers false to the emptiness query and true to the query of every
    name. *)
Theorem global_registration_invisible_to_any
    (root : PackageDict) (conf : BeartypeConf) (package_name : string) :
  conf_if_registered root = Some conf ->
  subpackages root = ∅ ->
  is_packages_registered_any root = false
  /\ is_package_registered root package_name = true.
Proof.
  intros Hconf Hempty. split.
  - unfold is_packages_registered_any. rewrite Hempty.
    rewrite bool_decide_eq_true_2; reflexivity.
  - rewrite is_package_registered_root, Hconf. reflexivity.
Qed.

End ClawPackageNamesFacts.

Lemma is_package_registered_misses_registered_package_witness :
  PyStr.is_dotted_identifier "pkg.sub" = true
  /\ exists cache : ClawPackageNames._PackageBasenameToSubpackagesDict nat,
      ClawPackageNames.register_packages PyStr.is_dotted_identifier
        (ClawPackageNames.NameStr "pkg.sub") 7 ClawPackageNames.empty_PackageDict
      = (cache, None)
      /\ ClawPackageNames.node_at ["pkg"; "sub"] cache
         = Some (ClawPackageNames.mk_PackageDict (Some 7) ∅)
      /\ ClawPackageNames.is_package_registered cache "pkg.sub.mod" = false
      /\ ClawPackageNames.is_package_registered cache "pkg.sub" = false
      /\ ClawPackageNames.is_package_registered cache "pkg.other" = false
      /\ ClawPackageNames.is_package_registered cache "pkg" = false.
Proof.
  split; [reflexivity|].
  apply (is_package_registered_misses_registered_package
           PyStr.is_dotted_identifier 7).
  reflexivity.
Defined.

Lemma register_packages_configured_witness :
  let root : ClawPackageNames._PackageBasenameToSubpackagesDict nat :=
    ClawPackageNames.mk_PackageDict None
      {[ "pkg" := ClawPackageNames.mk_PackageDict (Some 1) ∅ ]} in
  ClawPackageNames.register_packages PyStr.is_dotted_identifier
    (ClawPackageNames.NameStr "pkg") 1 root = (root, None)
  /\ ClawPackageNames.register_packages PyStr.is_dotted_identifier
       (ClawPackageNames.NameStr "pkg") 2 root
     = (root, Some (ClawPackageNames.PackageConfDiffers "pkg" 1 2)).
Proof.
  intros root. split.
  - exact (register_packages_configured PyStr.is_dotted_identifier root
             (ClawPackageNames.mk_PackageDict (Some 1) ∅) "pkg" 1 1
             eq_refl eq_refl eq_refl).
  - exact (register_packages_configured PyStr.is_dotted_identifier root
             (ClawPackageNames.mk_PackageDict (Some 1) ∅) "pkg" 1 2
             eq_refl eq_refl eq_refl).
Defined.

Lemma global_registration_invisible_to_any_witness :
  let root : ClawPackageNames._PackageBasenameToSubpackagesDict nat :=
    ClawPackageNames.mk_PackageDict (Some 3) ∅ in
  ClawPackageNames.is_packages_registered_any root = false
  /\ ClawPackageNames.is_package_registered root "any.name" = true.
Proof.
  intros root.
  apply (global_registration_invisible_to_any root 3 "any.name"); reflexivity.
Defined.


(** ** The syntax tree rewriter *)

Section ClawAstFacts.

Import ClawAst.

Variable IS_PYTHON_AT_LEAST_3_8 : bool.

Local Abbreviation visit := (ClawAst.visit IS_PYTHON_AT_LEAST_3_8).
Local Abbreviation visit_Module := (ClawAst.visit_Module IS_PYTHON_AT_LEAST_3_8).
Local Abbreviation copy_loc := (ClawAst.copy_loc IS_PYTHON_AT_LEAST_3_8).

(** [list.insert] at the index of the last item puts the new item just
    before it. *)
Lemma list_insert_at_last {A} (x : A) (pre : list A) (s : A) :
  list_insert_at (Z.of_nat (length pre)) x (pre ++ [s]) = pre ++ [x; s].
Proof.
  unfold list_insert_at.
  rewrite length_app; simpl.
  destruct (Z.ltb_spec (Z.of_nat (length pre)) 0) as [Hneg|_]; [lia|].
  destruct (Z.ltb_spec (Z.of_nat (length pre + 1)) (Z.of_nat (length pre)))
    as [Hbig|_]; [lia|].
  rewrite Nat2Z.id.
  rewrite firstn_app, Nat.sub_diag, firstn_all; simpl.
  rewrite skipn_app, Nat.sub_diag, skipn_all; simpl.
  rewrite <- app_assoc. reflexivity.
Qed.

(** The scanning loop of [visit_Module] stops at no statement: both of its
    branches go on to the next item, so it ends on the last one. *)
Lemma visit_Module_loop_last (pre : list stmt) (s : stmt) :
  forall i idx child,
    visit_Module_loop i idx child (pre ++ [s])
    = ((i + Z.of_nat (length pre))%Z, Some s).
Proof.
  induction pre as [|p pre IH]; intros i idx child; simpl.
  - rewrite Z.add_0_r. destruct (is_docstring s || is_future_import s);
      reflexivity.
  - destruct (is_docstring p || is_future_import p); rewrite IH;
      f_equal; lia.
Qed.

(** The scanning loop on the empty body keeps the initial values. *)
Lemma visit_Module_loop_nil i idx child :
  visit_Module_loop i idx child [] = (idx, child).
Proof. reflexivity. Qed.

(** The whole of [visit_Module] on a module of at least one statement whose
    node carries position attributes: the import is put before the last
    statement and takes its metadata from the module node. *)
Lemma visit_Module_nonempty (pre : list stmt) (s : stmt) (lm : loc) :
  visit_Module (mk_Module (pre ++ [s]) (Some lm))
  = inr (mk_Module
           (List.map visit pre ++ [import_beartype (copy_loc lm); visit s])
           (Some lm)).
Proof.
  unfold ClawAst.visit_Module; simpl.
  rewrite visit_Module_loop_last, Z.add_0_l.
  destruct (Z.eqb_spec (Z.of_nat (length pre)) (-1)) as [Hbad|_]; [lia|].
  cbn [negb]. rewrite list_insert_at_last, List.map_app. reflexivity.
Qed.

(** On a module node without position attributes, as the parser builds
    it, [visit_Module] raises as soon as the body holds a statement. *)
Lemma visit_Module_nonempty_parsed (pre : list stmt) (s : stmt) :
  visit_Module (mk_Module (pre ++ [s]) None) = inl (NoAttribute "lineno").
Proof.
  unfold ClawAst.visit_Module; simpl.
  rewrite visit_Module_loop_last, Z.add_0_l.
  destruct (Z.eqb_spec (Z.of_nat (length pre)) (-1)) as [Hbad|_]; [lia|].
  reflexivity.
Qed.

(** The loop over the parameters finds an annotation exactly when one of
    the parameters of [args.args] has one. *)
Lemma is_args_typed_loop_existsb (l : list arg) :
  is_args_typed_loop l = existsb (fun a => bool_of_node (annotation a)) l.
Proof.
  induction l as [|a l IH]; simpl; [reflexivity|].
  destruct (annotation a); simpl; [reflexivity | exact IH].
Qed.

(** C3 (code at the failing inputs).  Claim: the import is inserted at the
    first position after the leading docstring and future imports.  The
    code, on a module node carrying position attributes: a module made of
    its docstring alone gets the import before the docstring, and a module
    of two ordinary statements gets it between them (index 1, not 0); on a
    module node as the parser builds it, nothing is inserted and the call
    raises.  The empty module is returned as it is. *)
Theorem visit_Module_insertion_point
    (doc : string) (l l1 l2 lm : loc) (module_loc : option loc) :
  visit_Module (mk_Module [Expr (Str doc l) l] (Some lm))
  = inr (mk_Module [import_beartype (copy_loc lm); Expr (Str doc l) l]
           (Some lm))
  /\ visit_Module (mk_Module [OtherStmt l1; OtherStmt l2] (Some lm))
     = inr (mk_Module
              [OtherStmt l1; import_beartype (copy_loc lm); OtherStmt l2]
              (Some lm))
  /\ visit_Module (mk_Module [Expr (Str doc l) l] None)
     = inl (NoAttribute "lineno")
  /\ visit_Module (mk_Module [] module_loc) = inr (mk_Module [] module_loc).
Proof.
  split; [exact (visit_Module_nonempty [] (Expr (Str doc l) l) lm)|].
  split; [exact (visit_Module_nonempty [OtherStmt l1] (OtherStmt l2) lm)|].
  split; [exact (visit_Module_nonempty_parsed [] (Expr (Str doc l) l))|].
  reflexivity.
Qed.

(** The decision of [visit_FunctionDef] in full: the decoration reference
    is appended last to the decorator list exactly when the definition has
    a return annotation or a parameter of the list [args.args] has an
    annotation; failing that the decorator list is the one it had.  The
    body is visited in either case. *)
Lemma visit_FunctionDef_decorates
    (name : string) (fargs : arguments) (body : list stmt)
    (decorator_list : list expr) (returns : option expr) (l : loc) :
  let is_typed :=
    bool_decide (is_Some returns)
    || existsb (fun a => bool_decide (is_Some (annotation a))) (args fargs) in
  visit (FunctionDef name fargs body decorator_list returns l)
  = FunctionDef name fargs (List.map visit body)
      (if is_typed
       then decorator_list ++ [Name "beartype_object_safe" Load (copy_loc l)]
       else decorator_list)
      returns l.
Proof.
  assert (Hargs : forall params,
    is_args_typed_loop params
    = existsb (fun a => bool_decide (is_Some (annotation a))) params).
  { induction params as [|a params IH]; simpl; [reflexivity|].
    destruct (annotation a) as [hint|]; [reflexivity | exact IH]. }
  simpl. unfold decorate. rewrite Hargs.
  destruct returns as [hint|]; reflexivity.
Qed.

(** C4 (code at the failing inputs).  Claim: a function definition is
    decorated if and only if it has a return annotation or some positional
    parameter has an annotation.  The code reads the list [args.args]
    only: a definition without return annotation whose one parameter is
    annotated is left with the decorator list it had when that parameter
    is positional-only ([def f(x: int, /)]) or variadic
    ([def f( *x: int)]), and gets the decoration reference appended last
    when the same parameter stands in [args.args] ([def f(x: int)]). *)
Theorem visit_FunctionDef_skips_positional_only
    (name x : string) (hint : expr) (lx l : loc) (body : list stmt)
    (decorator_list : list expr) :
  let param := mk_arg x (Some hint) lx in
  let positional_only := mk_arguments [param] [] None [] None in
  let variadic := mk_arguments [] [] (Some param) [] None in
  let positional := mk_arguments [] [param] None [] None in
  visit (FunctionDef name positional_only body decorator_list None l)
  = FunctionDef name positional_only (List.map visit body) decorator_list
      None l
  /\ visit (FunctionDef name variadic body decorator_list None l)
     = FunctionDef name variadic (List.map visit body) decorator_list None l
  /\ visit (FunctionDef name positional body decorator_list None l)
     = FunctionDef name positional (List.map visit body)
         (decorator_list ++ [Name "beartype_object_safe" Load (copy_loc l)])
         None l.
Proof.
  intros param positional_only variadic positional.
  split; [reflexivity|]. split; reflexivity.
Qed.

(** Annotations of positional-only, keyword-only and variadic parameters
    play no part in the decision. *)
Lemma decorate_reads_args_only
    (fargs fargs' : arguments) (decorator_list : list expr)
    (returns : option expr) (l : loc) :
  args fargs = args fargs' ->
  decorate IS_PYTHON_AT_LEAST_3_8 fargs decorator_list returns l
  = decorate IS_PYTHON_AT_LEAST_3_8 fargs' decorator_list returns l.
Proof. intros E. unfold decorate. rewrite E. reflexivity. Qed.

(** C7 (code on every non-empty module).  Claim: the metadata of the
    synthesized import is copied from the statement at the insertion point.
    The code passes the module node as the source of the copy: the import
    carries the metadata of the module node whatever the statements are,
    and on a module node without position attributes the copy raises. *)
Theorem visit_Module_import_metadata
    (pre : list stmt) (s : stmt) (lm : loc) :
  visit_Module (mk_Module (pre ++ [s]) (Some lm))
  = inr (mk_Module
           (List.map visit pre ++ [import_beartype (copy_loc lm); visit s])
           (Some lm))
  /\ visit_Module (mk_Module (pre ++ [s]) None) = inl (NoAttribute "lineno")
  /\ lineno (copy_loc lm) = lineno lm
  /\ col_offset (copy_loc lm) = col_offset lm
  /\ end_lineno (copy_loc lm)
     = (if IS_PYTHON_AT_LEAST_3_8 then end_lineno lm else None)
  /\ end_col_offset (copy_loc lm)
     = (if IS_PYTHON_AT_LEAST_3_8 then end_col_offset lm else None).
Proof.
  split; [apply visit_Module_nonempty|].
  split; [apply visit_Module_nonempty_parsed|].
  repeat split; reflexivity.
Qed.

End ClawAstFacts.

(** The rewriter of the test scenario: on [docstring, future import,
    def f(x: int)] the import lands third, which is also the index of the
    last statement, and [f] is decorated. *)
Example visit_Module_scenario :
  let l := ClawAst.mk_loc 1 0 (Some 1%Z) (Some 5%Z) in
  let lm := ClawAst.mk_loc 0 0 None None in
  let int_ := ClawAst.Name "int" ClawAst.Load l in
  let f := fun decorators =>
    ClawAst.FunctionDef "f"
      (ClawAst.mk_arguments [] [ClawAst.mk_arg "x" (Some int_) l] None [] None)
      [ClawAst.OtherStmt l] decorators None l in
  let doc := ClawAst.Expr (ClawAst.Str "doc" l) l in
  let future :=
    ClawAst.ImportFrom (Some "__future__")
      [ClawAst.mk_alias "annotations" None] l in
  ClawAst.visit_Module true (ClawAst.mk_Module [doc; future; f []] (Some lm))
  = inr (ClawAst.mk_Module
           [doc; future; ClawAst.import_beartype lm;
            f [ClawAst.Name "beartype_object_safe" ClawAst.Load l]]
           (Some lm)).
Proof. reflexivity. Qed.


(** ** The hint registry *)

Section TypistryFacts.

Import Typistry.

Variable PARAM_NAME_TYPISTRY : string.
Variable is_module_attr_name : string -> bool.
Variable get_object_classname : pyclass -> string.
Variable get_object_class_basename : pyclass -> string.
Variable is_class_builtin : pyclass -> bool.
Variable is_classname_builtin : string -> bool.
Variable is_plain_class : pyobj -> bool.
Variable py_hash : list pyobj -> Z.
Variable tuple_of_set : list pyobj -> list pyobj.

Local Abbreviation __setitem__ :=
  (Typistry.__setitem__ get_object_classname is_classname_builtin
     is_plain_class).
Local Abbreviation __missing__ := (Typistry.__missing__ is_module_attr_name).
Local Abbreviation __getitem__ := (Typistry.__getitem__ is_module_attr_name).
Local Abbreviation hint_expr := (Typistry.hint_expr PARAM_NAME_TYPISTRY).
Local Abbreviation register_typistry_forwardref :=
  (Typistry.register_typistry_forwardref PARAM_NAME_TYPISTRY
     is_module_attr_name).
Local Abbreviation register_typistry_tuple :=
  (Typistry.register_typistry_tuple PARAM_NAME_TYPISTRY get_object_classname
     get_object_class_basename is_class_builtin is_classname_builtin
     is_plain_class py_hash tuple_of_set).
Local Abbreviation is_hint_nonpep_tuple :=
  (Typistry.is_hint_nonpep_tuple is_plain_class).
Local Abbreviation rejected :=
  (Typistry.rejected get_object_classname is_plain_class).
Local Abbreviation exempt_by_classname :=
  (Typistry.exempt_by_classname get_object_classname is_classname_builtin).

(** *** Lookups *)

(** The lookup of a valid name absent from the registry, in a world where
    the name resolves to a class: the module is imported, the class is
    returned and the registry is the one before the lookup. *)
Lemma getitem_resolves (w : world) (st : state) (name : string) (c : pyclass) :
  is_module_attr_name name = true ->
  bear_typistry st !! name = None ->
  resolution_of w name = ResolvesTo c ->
  __getitem__ w name st
  = (logged (PyStr.rpartition "." name).1.1 st, inr (PyType c)).
Proof.
  intros Hvalid Habsent Hres.
  unfold Typistry.__getitem__, Typistry.__missing__,
    Typistry.import_module_attr, Typistry.import_module_attr_or_none,
    Typistry.import_module, Typistry.getattr_or_None.
  unfold resolution_of in Hres.
  rewrite Habsent, Hvalid; simpl.
  destruct (PyStr.rpartition "." name) as [[m sep] b]; simpl in *.
  destruct (bool_decide (m = "")); [discriminate|].
  destruct (w !! m) as [[raised|attrs|]|]; try discriminate.
  destruct (attrs !! b) as [[| | |c'|]|]; try discriminate.
  injection Hres as ->. reflexivity.
Qed.

(** The same lookup in a world where the name resolves to no class raises
    the exception of unresolvable forward references, and the registry is
    again the one before the lookup. *)
Lemma getitem_unresolvable (w : world) (st : state) (name : string) :
  is_module_attr_name name = true ->
  bear_typistry st !! name = None ->
  resolution_of w name = Unresolvable ->
  exists why,
    __getitem__ w name st
    = (logged (PyStr.rpartition "." name).1.1 st,
       inl (BeartypeCallHintForwardRefException why)).
Proof.
  intros Hvalid Habsent Hres.
  unfold Typistry.__getitem__, Typistry.__missing__,
    Typistry.import_module_attr, Typistry.import_module_attr_or_none,
    Typistry.import_module, Typistry.getattr_or_None.
  unfold resolution_of in Hres.
  rewrite Habsent, Hvalid; simpl.
  destruct (PyStr.rpartition "." name) as [[m sep] b]; simpl in *.
  destruct (bool_decide (m = "")); [discriminate|].
  destruct (w !! m) as [[raised|attrs|]|]; try discriminate;
    [|eexists; reflexivity].
  destruct (attrs !! b) as [[| | |c'|]|]; try discriminate;
    eexists; reflexivity.
Qed.

(** No lookup writes to the registry. *)
Lemma getitem_keeps_registry (w : world) (st : state) (key : string) :
  bear_typistry (__getitem__ w key st).1 = bear_typistry st.
Proof.
  unfold Typistry.__getitem__, Typistry.__missing__,
    Typistry.import_module_attr, Typistry.import_module_attr_or_none,
    Typistry.import_module.
  destruct (bear_typistry st !! key); [reflexivity|].
  destruct (is_module_attr_name key); simpl; [|reflexivity].
  destruct (PyStr.rpartition "." key) as [[m sep] b].
  destruct (bool_decide (m = "")); [reflexivity|].
  destruct (w !! m) as [[raised|attrs|]|]; try reflexivity.
  destruct (getattr_or_None attrs b); reflexivity.
Qed.

(** C1 (code at the failing input).  Claim: the first lookup of an absent
    name stores the class it resolves to, and later lookups return the
    stored class without importing again.  The code: the first lookup
    imports the module and returns the class, but the name is as absent
    from the registry after it as before, and the second lookup imports the
    module once more. *)
Theorem getitem_resolves_again_on_every_lookup
    (w : world) (st : state) (name : string) (c : pyclass) :
  is_module_attr_name name = true ->
  bear_typistry st !! name = None ->
  resolution_of w name = ResolvesTo c ->
  let module_name := (PyStr.rpartition "." name).1.1 in
  let st1 := mk_state (bear_typistry st) (imported st ++ [module_name]) in
  let st2 :=
    mk_state (bear_typistry st) (imported st ++ [module_name; module_name]) in
  __getitem__ w name st = (st1, inr (PyType c))
  /\ bear_typistry st1 !! name = None
  /\ __getitem__ w name st1 = (st2, inr (PyType c)).
Proof.
  intros Hvalid Habsent Hres module_name st1 st2.
  split; [exact (getitem_resolves w st name c Hvalid Habsent Hres)|].
  split; [exact Habsent|].
  rewrite (getitem_resolves w st1 name c Hvalid Habsent Hres).
  unfold logged, st1, st2; simpl. rewrite <- app_assoc. reflexivity.
Qed.

(** C9.  Registering a forward reference raises the validation exception
    exactly when the name is not valid, and in either case leaves the
    registry and the log of imports as they were.  For a valid name absent
    from the registry, a lookup while the name resolves to no class raises
    the exception of unresolvable references, and a lookup once the name
    resolves to a class returns that class. *)
Theorem register_typistry_forwardref_defers (st : state) (name : string) :
  register_typistry_forwardref name st
  = (st, if is_module_attr_name name then inr (hint_expr name)
         else inl (BeartypeDecorHintForwardRefException AttrNameInvalid))
  /\ forall (w w' : world) (c : pyclass),
      is_module_attr_name name = true ->
      bear_typistry st !! name = None ->
      resolution_of w name = Unresolvable ->
      resolution_of w' name = ResolvesTo c ->
      exists why st1 st2,
        __getitem__ w name (register_typistry_forwardref name st).1
        = (st1, inl (BeartypeCallHintForwardRefException why))
        /\ __getitem__ w' name st1 = (st2, inr (PyType c)).
Proof.
  assert (Hreg : register_typistry_forwardref name st
    = (st, if is_module_attr_name name then inr (hint_expr name)
           else inl (BeartypeDecorHintForwardRefException AttrNameInvalid))).
  { unfold Typistry.register_typistry_forwardref.
    destruct (is_module_attr_name name); reflexivity. }
  split; [exact Hreg|].
  intros w w' c Hvalid Habsent Hno Hyes. rewrite Hreg; simpl.
  destruct (getitem_unresolvable w st name Hvalid Habsent Hno) as [why Hget].
  exists why. eexists. eexists. split; [exact Hget|].
  apply getitem_resolves; [exact Hvalid | exact Habsent | exact Hyes].
Qed.

(** *** The guard of insertions *)

(** C6, as amended.  An insertion raises exactly under the conditions of
    [rejected], the exemption of built-in classes being decided on the name
    of the class; otherwise the key is a string and the pair is stored. *)
Theorem setitem_guard (self : gmap string pyobj) (hint_name hint : pyobj) :
  match __setitem__ self hint_name hint with
  | inl _ => rejected exempt_by_classname self hint_name hint
  | inr d =>
      ~ rejected exempt_by_classname self hint_name hint
      /\ exists name, hint_name = PyStr name /\ d = <[name := hint]> self
  end.
Proof.
  unfold Typistry.__setitem__, Typistry.rejected, Typistry.exempt_by_classname.
  destruct hint_name as [| name | n | kc | kitems];
    try (left; intros name; discriminate).
  destruct (self !! name) as [prior|] eqn:Hkey.
  { right; left. exists name. split; [reflexivity | eauto]. }
  assert (Hfresh : ~ exists name', PyStr name = PyStr name'
                                   /\ is_Some (self !! name')).
  { intros (name' & E & [v Hv]). injection E as <-. congruence. }
  assert (Hstr : ~ forall name', PyStr name <> PyStr name').
  { intros Hn. exact (Hn name eq_refl). }
  destruct hint as [| s | n | c | items].
  - do 4 right. split; intros; discriminate.
  - do 4 right. split; intros; discriminate.
  - do 4 right. split; intros; discriminate.
  - destruct (bool_decide_reflect (name = get_object_classname c)) as [E|NE];
      simpl.
    + split; [|exists name; split; reflexivity].
      intros [H|[H|[(c' & E' & Hne & _)|[(items & E' & _)|[H _]]]]];
        [tauto | tauto | | discriminate | exact (H c eq_refl)].
      injection E' as <-. apply Hne. congruence.
    + destruct (is_classname_builtin (get_object_classname c)) eqn:Hb; simpl.
      * split; [|exists name; split; reflexivity].
        intros [H|[H|[(c' & E' & _ & Hex)|[(items & E' & _)|[H _]]]]];
          [tauto | tauto | | discriminate | exact (H c eq_refl)].
        injection E' as <-. specialize (Hex name eq_refl). congruence.
      * right; right; left. exists c. split; [reflexivity|].
        split; [congruence|]. intros name' E'. exact Hb.
  - destruct (Typistry.is_hint_nonpep_tuple is_plain_class items) eqn:Hnp;
      simpl.
    + destruct (PyStr.startswith name _TYPISTRY_HINT_NAME_TUPLE_PREFIX)
        eqn:Hpre; simpl.
      * split; [|exists name; split; reflexivity].
        intros [H|[H|[(c' & E' & _)|[(items' & E' & Hor)|[_ H]]]]];
          [tauto | tauto | discriminate | | exact (H items eq_refl)].
        injection E' as <-.
        destruct Hor as [Hp|Hn]; [|congruence].
        specialize (Hp name eq_refl). congruence.
      * do 3 right; left. exists items. split; [reflexivity|].
        left. intros name' E'. injection E' as <-. exact Hpre.
    + do 3 right; left. exists items. split; [reflexivity|]. right. exact Hnp.
Qed.

(** *** Tuples and the disambiguation of their keys *)

Lemma tildes_snoc (name : string) (n : nat) :
  ((name ++ "~") ++ tildes n)%string = (name ++ tildes (S n))%string.
Proof. rewrite str_app_assoc. reflexivity. Qed.

(** Keys with different numbers of markers are different keys. *)
Lemma tildes_inj (name : string) (n m : nat) :
  (name ++ tildes n)%string = (name ++ tildes m)%string -> n = m.
Proof.
  intros E. apply (f_equal String.length) in E.
  rewrite !str_length_app in E. unfold tildes in E.
  rewrite !repeat_char_length in E. lia.
Qed.

(** The expression of a key determines the key. *)
Lemma hint_expr_inj (k1 k2 : string) : hint_expr k1 = hint_expr k2 -> k1 = k2.
Proof.
  unfold Typistry.hint_expr, PyStr.repr. intros E.
  apply (inj _) in E.
  apply str_app_inv_tail in E.
  apply (inj _) in E.
  now apply str_app_inv_tail in E.
Qed.

(** The loop only reads the registry at the name and its extensions. *)
Lemma disambiguate_ext (fuel : nat) :
  forall (self self' : gmap string pyobj) (name : string),
    (forall j, is_Some (self !! (name ++ tildes j)%string)
               <-> is_Some (self' !! (name ++ tildes j)%string)) ->
    disambiguate fuel self name = disambiguate fuel self' name.
Proof.
  induction fuel as [|fuel IH]; intros self self' name Hagree; simpl.
  - reflexivity.
  - pose proof (Hagree 0) as H0. cbn in H0. rewrite str_app_nil_r in H0.
    assert (Hnext : disambiguate fuel self (name ++ "~")
                    = disambiguate fuel self' (name ++ "~")).
    { apply IH. intros j. rewrite tildes_snoc. apply Hagree. }
    destruct (self !! name) as [v|] eqn:E, (self' !! name) as [v'|] eqn:E'.
    + exact Hnext.
    + destruct (proj1 H0 (mk_is_Some _ _ eq_refl)) as [x Hx]; discriminate.
    + destruct (proj2 H0 (mk_is_Some _ _ eq_refl)) as [x Hx]; discriminate.
    + reflexivity.
Qed.

(** The loop ends, within as many tests as the registry has keys plus one,
    on the first extension of the name that is no key. *)
Lemma disambiguate_total (fuel : nat) :
  forall (self : gmap string pyobj) (name : string),
    size self < fuel ->
    exists n,
      disambiguate fuel self name = Some (name ++ tildes n)%string
      /\ self !! (name ++ tildes n)%string = None
      /\ forall j, j < n -> is_Some (self !! (name ++ tildes j)%string).
Proof.
  induction fuel as [|fuel IH]; intros self name Hsize; [lia|].
  simpl. destruct (self !! name) as [v|] eqn:Hname.
  - assert (Hdel : size (delete name self) < fuel).
    { rewrite map_size_delete_Some by eauto.
      assert (size self <> 0).
      { apply map_size_ne_0_lookup_2 with name. eauto. }
      lia. }
    destruct (IH (delete name self) (name ++ "~")%string Hdel)
      as (n & Hrun & Hfree & Hused).
    assert (Hother : forall j,
      (name ++ tildes (S j))%string <> name).
    { intros j E. apply (f_equal String.length) in E.
      rewrite str_length_app in E. unfold tildes in E.
      rewrite repeat_char_length in E. lia. }
    exists (S n). rewrite <- !tildes_snoc. split; [|split].
    + rewrite <- Hrun. apply disambiguate_ext. intros j.
      rewrite tildes_snoc, lookup_delete_ne; [reflexivity|].
      intros E. exact (Hother j (eq_sym E)).
    + rewrite tildes_snoc in Hfree |- *.
      rewrite lookup_delete_ne in Hfree; [exact Hfree|].
      intros E. exact (Hother n (eq_sym E)).
    + intros [|j] Hj.
      * cbn. rewrite str_app_nil_r, Hname. eauto.
      * specialize (Hused j ltac:(lia)).
        rewrite tildes_snoc in Hused.
        rewrite lookup_delete_ne in Hused; [exact Hused|].
        intros E. exact (Hother j (eq_sym E)).
  - exists 0. cbn. rewrite str_app_nil_r. split; [reflexivity|].
    split; [exact Hname | intros j Hj; lia].
Qed.

(** The registration of a tuple that is no 1-tuple and whose items are all
    plain classes: the tuple is stored under the first free extension of
    its hash-derived key. *)
Lemma register_typistry_tuple_stores
    (fuel : nat) (st : state) (hint : list pyobj) (is_types_unique : bool) :
  let items := if negb is_types_unique then tuple_of_set hint else hint in
  let base :=
    (_TYPISTRY_HINT_NAME_TUPLE_PREFIX ++ PyStr.of_int (py_hash items))%string in
  length hint <> 1 ->
  is_hint_nonpep_tuple items = true ->
  size (bear_typistry st) < fuel ->
  exists n,
    register_typistry_tuple fuel (PyTuple hint) is_types_unique st
    = Some (mk_state (<[(base ++ tildes n)%string := PyTuple items]>
                        (bear_typistry st)) (imported st),
            inr (hint_expr (base ++ tildes n)%string))
    /\ bear_typistry st !! (base ++ tildes n)%string = None
    /\ forall j, j < n -> is_Some (bear_typistry st !! (base ++ tildes j)%string).
Proof.
  intros items base Hlen Hnonpep Hfuel.
  destruct (disambiguate_total fuel (bear_typistry st) base Hfuel)
    as (n & Hrun & Hfree & Hused).
  exists n. split; [|split; [exact Hfree | exact Hused]].
  assert (Hset : __setitem__ (bear_typistry st) (PyStr (base ++ tildes n))
                   (PyTuple items)
                 = inr (<[(base ++ tildes n)%string := PyTuple items]>
                          (bear_typistry st))).
  { unfold Typistry.__setitem__. rewrite Hfree.
    fold items in Hnonpep. unfold Typistry.is_hint_nonpep_tuple in *.
    rewrite Hnonpep. unfold base, _TYPISTRY_HINT_NAME_TUPLE_PREFIX.
    rewrite !str_app_cons, startswith_cons. reflexivity. }
  unfold Typistry.register_typistry_tuple.
  destruct hint as [|a [|b rest]]; [| simpl in Hlen; lia |];
    fold items; fold base; rewrite Hrun, Hset; reflexivity.
Qed.

(** C8.  Two tuples that are no 1-tuples, made of plain classes and of
    equal hash (after the coercion through a set, when asked for), are both
    registered, whatever the registry held before: the second under the key
    of the first extended by further markers, every shorter extension being
    in use; the keys and the expressions returned differ, and each key maps
    to its own tuple. *)
Theorem register_typistry_tuple_collision
    (st0 : state) (hint1 hint2 : list pyobj) (unique1 unique2 : bool) :
  let items1 := if negb unique1 then tuple_of_set hint1 else hint1 in
  let items2 := if negb unique2 then tuple_of_set hint2 else hint2 in
  let base :=
    (_TYPISTRY_HINT_NAME_TUPLE_PREFIX ++ PyStr.of_int (py_hash items1))%string in
  length hint1 <> 1 ->
  length hint2 <> 1 ->
  py_hash items1 = py_hash items2 ->
  is_hint_nonpep_tuple items1 = true ->
  is_hint_nonpep_tuple items2 = true ->
  exists (n1 n2 : nat) (st1 st2 : state),
    let key1 := (base ++ tildes n1)%string in
    let key2 := (base ++ tildes n2)%string in
    register_typistry_tuple (enough_fuel st0) (PyTuple hint1) unique1 st0
    = Some (st1, inr (hint_expr key1))
    /\ register_typistry_tuple (enough_fuel st1) (PyTuple hint2) unique2 st1
       = Some (st2, inr (hint_expr key2))
    /\ n1 < n2
    /\ (forall j, j < n2 ->
          is_Some (bear_typistry st1 !! (base ++ tildes j)%string))
    /\ key1 <> key2
    /\ hint_expr key1 <> hint_expr key2
    /\ bear_typistry st2 !! key1 = Some (PyTuple items1)
    /\ bear_typistry st2 !! key2 = Some (PyTuple items2).
Proof.
  intros items1 items2 base Hlen1 Hlen2 Hhash Hnp1 Hnp2.
  destruct (register_typistry_tuple_stores (enough_fuel st0) st0 hint1 unique1
              Hlen1 Hnp1) as (n1 & Hreg1 & Hfree1 & Hused1);
    [unfold enough_fuel; lia|].
  fold items1 in Hreg1, Hfree1, Hused1. fold base in Hreg1, Hfree1, Hused1.
  set (st1 := mk_state (<[(base ++ tildes n1)%string := PyTuple items1]>
                          (bear_typistry st0)) (imported st0)) in *.
  destruct (register_typistry_tuple_stores (enough_fuel st1) st1 hint2 unique2
              Hlen2 Hnp2) as (n2 & Hreg2 & Hfree2 & Hused2);
    [unfold enough_fuel; lia|].
  fold items2 in Hreg2, Hfree2, Hused2.
  rewrite <- Hhash in Hreg2, Hfree2, Hused2.
  fold base in Hreg2, Hfree2, Hused2.
  assert (Hlt : n1 < n2).
  { destruct (Nat.lt_trichotomy n1 n2) as [Hlt|[Heq|Hgt]]; [exact Hlt| |].
    - subst n2. unfold st1 in Hfree2; simpl in Hfree2.
      rewrite lookup_insert_eq in Hfree2. discriminate.
    - destruct (Hused1 n2 Hgt) as [v Hv].
      unfold st1 in Hfree2; simpl in Hfree2.
      rewrite lookup_insert_ne in Hfree2; [congruence|].
      intros E. apply tildes_inj in E. lia. }
  assert (Hkeys : (base ++ tildes n1)%string <> (base ++ tildes n2)%string).
  { intros E. apply tildes_inj in E. lia. }
  exists n1, n2, st1. eexists. cbv zeta.
  split; [exact Hreg1|]. split; [exact Hreg2|]. split; [exact Hlt|].
  split; [exact Hused2|]. split; [exact Hkeys|].
  split; [intros E; apply Hkeys; exact (hint_expr_inj _ _ E)|].
  simpl. split.
  - rewrite lookup_insert_ne by (intros E; apply Hkeys; now rewrite E).
    apply lookup_insert_eq.
  - apply lookup_insert_eq.
Qed.

End TypistryFacts.

Lemma getitem_resolves_again_on_every_lookup_witness :
  let st1 := Typistry.mk_state ∅ ["mymod"] in
  let st2 := Typistry.mk_state ∅ ["mymod"; "mymod"] in
  Sample.__getitem__ Sample.world_after "mymod.C" Sample.state0
  = (st1, inr (Typistry.PyType Sample.class_C))
  /\ Typistry.bear_typistry st1 !! "mymod.C" = None
  /\ Sample.__getitem__ Sample.world_after "mymod.C" st1
     = (st2, inr (Typistry.PyType Sample.class_C)).
Proof.
  exact (getitem_resolves_again_on_every_lookup PyStr.is_dotted_attr_name
           Sample.world_after Sample.state0 "mymod.C" Sample.class_C
           eq_refl eq_refl eq_refl).
Defined.

Lemma register_typistry_forwardref_defers_witness :
  Sample.register_typistry_forwardref "mymod.C" Sample.state0
  = (Sample.state0, inr "__beartypistry['mymod.C']")
  /\ exists why st1 st2,
      Sample.__getitem__ Sample.world_before "mymod.C"
        (Sample.register_typistry_forwardref "mymod.C" Sample.state0).1
      = (st1, inl (Typistry.BeartypeCallHintForwardRefException why))
      /\ Sample.__getitem__ Sample.world_after "mymod.C" st1
         = (st2, inr (Typistry.PyType Sample.class_C)).
Proof.
  destruct (register_typistry_forwardref_defers Sample.PARAM_NAME_TYPISTRY
              PyStr.is_dotted_attr_name Sample.state0 "mymod.C")
    as [Hreg Hlookups].
  split; [exact Hreg|].
  exact (Hlookups Sample.world_before Sample.world_after Sample.class_C
           eq_refl eq_refl eq_refl eq_refl).
Defined.

(** C6, as stated, fails.  Were the exemption of built-in classes a matter
    of the key, the key "foo" would be either exempt or not; but under that
    one key the guard stores the built-in class [int] and refuses the class
    [mymod.C], although the name of neither class is the key. *)
Lemma setitem_exemption_is_not_on_the_key :
  ~ exists key_exempt : string -> bool,
      forall (self : gmap string Typistry.pyobj)
             (hint_name hint : Typistry.pyobj),
        (exists e, Sample.__setitem__ self hint_name hint = inl e)
        <-> Typistry.rejected Sample.get_object_classname Sample.is_plain_class
              (fun name _ => key_exempt name) self hint_name hint.
Proof.
  intros [key_exempt H].
  destruct (key_exempt "foo") eqn:Hfoo.
  - destruct (H ∅ (Typistry.PyStr "foo") (Typistry.PyType Sample.class_C))
      as [Hraise _].
    destruct Hraise
      as [Hn|[(n & En & Hs)|[(c & Ec & Hne & Hex)|[(items & Ei & _)|[Hc _]]]]].
    + eexists. reflexivity.
    + exact (Hn "foo" eq_refl).
    + rewrite lookup_empty in Hs. destruct Hs as [v Hv]. discriminate.
    + specialize (Hex "foo" eq_refl). simpl in Hex. congruence.
    + discriminate.
    + exact (Hc _ eq_refl).
  - destruct (H ∅ (Typistry.PyStr "foo") (Typistry.PyType Sample.class_int))
      as [_ Hrej].
    destruct Hrej as [e He].
    + right; right; left. exists Sample.class_int.
      split; [reflexivity|]. split; [discriminate|].
      intros name En. injection En as <-. exact Hfoo.
    + discriminate.
Qed.

Lemma register_typistry_tuple_collision_witness :
  let hint1 := [Typistry.PyType Sample.class_C; Typistry.PyType Sample.class_D] in
  let hint2 := [Typistry.PyType Sample.class_D; Typistry.PyType Sample.class_E] in
  exists (n1 n2 : nat) (st1 st2 : Typistry.state),
    let key1 := ("+42" ++ Typistry.tildes n1)%string in
    let key2 := ("+42" ++ Typistry.tildes n2)%string in
    Sample.register_typistry_tuple (Typistry.enough_fuel Sample.state0)
      (Typistry.PyTuple hint1) true Sample.state0
    = Some (st1, inr (Sample.hint_expr key1))
    /\ Sample.register_typistry_tuple (Typistry.enough_fuel st1)
         (Typistry.PyTuple hint2) true st1
       = Some (st2, inr (Sample.hint_expr key2))
    /\ n1 < n2
    /\ (forall j, j < n2 ->
          is_Some (Typistry.bear_typistry st1
                     !! ("+42" ++ Typistry.tildes j)%string))
    /\ key1 <> key2
    /\ Sample.hint_expr key1 <> Sample.hint_expr key2
    /\ Typistry.bear_typistry st2 !! key1 = Some (Typistry.PyTuple hint1)
    /\ Typistry.bear_typistry st2 !! key2 = Some (Typistry.PyTuple hint2).
Proof.
  intros hint1 hint2.
  refine (register_typistry_tuple_collision Sample.PARAM_NAME_TYPISTRY
            Sample.get_object_classname Sample.get_object_class_basename
            Sample.is_class_builtin Sample.is_classname_builtin
            Sample.is_plain_class Sample.py_hash Sample.tuple_of_set
            Sample.state0 hint1 hint2 true true _ _ _ _ _).
  - simpl. lia.
  - simpl. lia.
  - reflexivity.
  - reflexivity.
  - reflexivity.
Defined.

(** The run behind the witness: under a hash making all tuples collide, the
    first tuple is registered under "+42" and the second under "+42~". *)
Example register_typistry_tuple_collision_run :
  let hint1 := [Typistry.PyType Sample.class_C; Typistry.PyType Sample.class_D] in
  let hint2 := [Typistry.PyType Sample.class_D; Typistry.PyType Sample.class_E] in
  match Sample.register_typistry_tuple 1 (Typistry.PyTuple hint1) true
          Sample.state0 with
  | Some (st1, inr expr1) =>
      expr1 = "__beartypistry['+42']"
      /\ match Sample.register_typistry_tuple 2 (Typistry.PyTuple hint2) true
                 st1 with
         | Some (st2, inr expr2) =>
             expr2 = "__beartypistry['+42~']"
             /\ Typistry.bear_typistry st2 !! "+42"
                = Some (Typistry.PyTuple hint1)
             /\ Typistry.bear_typistry st2 !! "+42~"
                = Some (Typistry.PyTuple hint2)
         | _ => False
         end
  | _ => False
  end.
Proof. vm_compute. repeat split. Qed.

(* ===================================================================== *)
(** * Part III: further properties of the code                            *)
(* ===================================================================== *)

(** ** The package scope cache, continued *)

Section ClawPackageNamesMore.

Import ClawPackageNames.

Context {BeartypeConf : Type} `{EqDecision BeartypeConf}.
Variable is_identifier : string -> bool.

Local Abbreviation PackageDict :=
  (_PackageBasenameToSubpackagesDict BeartypeConf).
Local Abbreviation register_packages :=
  (ClawPackageNames.register_packages is_identifier).

(** The node [curr] configured with [c] along the path [bs]. *)
Local Abbreviation configured bs curr c :=
  (exists node : PackageDict,
     node_at bs curr = Some node /\ conf_if_registered node = Some c).

(** The validation loop returns a name of the iterable that is no
    identifier and is preceded by identifiers only. *)
Lemma first_invalid_name_app (pre post : list string) (bad : string) :
  Forall (fun n => is_identifier n = true) pre ->
  is_identifier bad = false ->
  first_invalid_name is_identifier (pre ++ bad :: post) = Some bad.
Proof.
  induction 1 as [|n pre Hn _ IH]; intros Hbad; simpl.
  - now rewrite Hbad.
  - rewrite Hn. now apply IH.
Qed.

Lemma first_invalid_name_None (package_names : list string) :
  first_invalid_name is_identifier package_names = None ->
  Forall (fun n => is_identifier n = true) package_names.
Proof.
  induction package_names as [|n rest IH]; simpl; intros H; [constructor|].
  destruct (is_identifier n) eqn:Hn; [|discriminate].
  constructor; [exact Hn | now apply IH].
Qed.

(** One registration never unsets nor replaces a configuration: a node
    configured before is configured the same after, whether the
    registration succeeds or raises. *)
Lemma register_package_basenames_keeps
    (package_name : string) (conf : BeartypeConf) (bs : list string) :
  forall (curr : PackageDict) (bs' : list string) (c : BeartypeConf),
    configured bs' curr c ->
    configured bs'
      (register_package_basenames package_name conf bs curr).1 c.
Proof.
  induction bs as [|b rest IH]; intros curr bs' c (node & Hnode & Hconf).
  - simpl. destruct (conf_if_registered curr) as [conf_curr|] eqn:Hcurr.
    + destruct (decide (conf_curr = conf)); simpl; eauto.
    + simpl. destruct bs' as [|b' rest'].
      * simpl in Hnode. injection Hnode as <-. congruence.
      * exists node. split; [exact Hnode | exact Hconf].
  - simpl.
    destruct (register_package_basenames package_name conf rest _)
      as [sub raised] eqn:Hrec.
    simpl. destruct bs' as [|b' rest'].
    + simpl in Hnode. injection Hnode as <-.
      eexists; split; [reflexivity | exact Hconf].
    + simpl in Hnode |- *.
      destruct (decide (b = b')) as [<-|Hne].
      * rewrite lookup_insert_eq.
        destruct (subpackages curr !! b) as [d|] eqn:Hd; [|discriminate].
        specialize (IH d rest' c (ex_intro _ node (conj Hnode Hconf))).
        rewrite Hrec in IH. exact IH.
      * rewrite lookup_insert_ne by exact Hne.
        exists node. split; [exact Hnode | exact Hconf].
Qed.

(** A registration that returns configures the terminal node of its path
    with the configuration passed. *)
Lemma register_package_basenames_registers
    (package_name : string) (conf : BeartypeConf) (bs : list string) :
  forall curr curr' : PackageDict,
    register_package_basenames package_name conf bs curr = (curr', None) ->
    configured bs curr' conf.
Proof.
  induction bs as [|b rest IH]; intros curr curr' Hreg; simpl in Hreg.
  - destruct (conf_if_registered curr) as [conf_curr|] eqn:Hcurr.
    + destruct (decide (conf_curr = conf)) as [->|]; [|discriminate].
      injection Hreg as <-. exists curr. split; [reflexivity | exact Hcurr].
    + injection Hreg as <-. eexists; split; reflexivity.
  - destruct (register_package_basenames package_name conf rest _)
      as [sub raised] eqn:Hrec.
    injection Hreg as <- ->.
    simpl. rewrite lookup_insert_eq. exact (IH _ _ Hrec).
Qed.

(** The keys of a node are kept by a registration starting from it. *)
Lemma register_package_basenames_keys
    (package_name : string) (conf : BeartypeConf) (bs : list string)
    (curr : PackageDict) (k : string) :
  is_Some (subpackages curr !! k) ->
  is_Some (subpackages
             (register_package_basenames package_name conf bs curr).1 !! k).
Proof.
  intros Hk. destruct bs as [|b rest]; simpl.
  - destruct (conf_if_registered curr) as [conf_curr|]; simpl; [|exact Hk].
    destruct (decide (conf_curr = conf)); exact Hk.
  - destruct (register_package_basenames package_name conf rest _)
      as [sub raised].
    simpl. destruct (decide (b = k)) as [->|Hne].
    + rewrite lookup_insert_eq. eauto.
    + rewrite lookup_insert_ne by exact Hne. exact Hk.
Qed.

(** A registration along a non-empty path leaves its first segment as a
    key of the node it starts from. *)
Lemma register_package_basenames_first_key
    (package_name : string) (conf : BeartypeConf) (b : string)
    (rest : list string) (curr : PackageDict) :
  is_Some (subpackages
             (register_package_basenames package_name conf (b :: rest) curr).1
           !! b).
Proof.
  simpl.
  destruct (register_package_basenames package_name conf rest _)
    as [sub raised].
  simpl. rewrite lookup_insert_eq. eauto.
Qed.

(** The registration loop over a concatenation of names. *)
Lemma register_package_names_app
    (conf : BeartypeConf) (pre post : list string) :
  forall root : PackageDict,
    register_package_names conf (pre ++ post) root
    = match register_package_names conf pre root with
      | (root', Some e) => (root', Some e)
      | (root', None) => register_package_names conf post root'
      end.
Proof.
  induction pre as [|n pre IH]; intros root; simpl.
  - reflexivity.
  - destruct (register_package_basenames n conf (PyStr.split "." n) root)
      as [root1 [e|]]; [reflexivity | apply IH].
Qed.

(** The loop keeps configurations, the slot of the root and the keys of
    the root. *)
Lemma register_package_names_keeps
    (conf : BeartypeConf) (package_names : list string) :
  forall (root : PackageDict) (bs' : list string) (c : BeartypeConf),
    configured bs' root c ->
    configured bs' (register_package_names conf package_names root).1 c.
Proof.
  induction package_names as [|n rest IH]; intros root bs' c Hc; simpl.
  - exact Hc.
  - pose proof (register_package_basenames_keeps n conf (PyStr.split "." n)
                  root bs' c Hc) as H1.
    destruct (register_package_basenames n conf (PyStr.split "." n) root)
      as [root1 [e|]]; simpl in *; [exact H1 | now apply IH].
Qed.

Lemma register_package_names_conf
    (conf : BeartypeConf) (package_names : list string) :
  forall root : PackageDict,
    conf_if_registered (register_package_names conf package_names root).1
    = conf_if_registered root.
Proof.
  induction package_names as [|n rest IH]; intros root; simpl.
  - reflexivity.
  - destruct (PyStr.split "." n) as [|b bs] eqn:Hsplit;
      [now destruct (split_not_nil "." n)|].
    pose proof (register_package_basenames_conf n conf b bs root) as H1.
    destruct (register_package_basenames n conf (b :: bs) root)
      as [root1 [e|]]; simpl in *; [exact H1|].
    rewrite IH. exact H1.
Qed.

Lemma register_package_names_keys
    (conf : BeartypeConf) (package_names : list string) :
  forall (root : PackageDict) (k : string),
    is_Some (subpackages root !! k) ->
    is_Some (subpackages (register_package_names conf package_names root).1
             !! k).
Proof.
  induction package_names as [|n rest IH]; intros root k Hk; simpl.
  - exact Hk.
  - pose proof (register_package_basenames_keys n conf (PyStr.split "." n)
                  root k Hk) as H1.
    destruct (register_package_basenames n conf (PyStr.split "." n) root)
      as [root1 [e|]]; simpl in *; [exact H1 | now apply IH].
Qed.

(** The loop registers every name when it returns. *)
Lemma register_package_names_registers
    (conf : BeartypeConf) (package_names : list string) :
  forall root root' : PackageDict,
    register_package_names conf package_names root = (root', None) ->
    forall n, In n package_names -> configured (PyStr.split "." n) root' conf.
Proof.
  induction package_names as [|m rest IH]; intros root root' Hreg n Hin;
    [destruct Hin|].
  simpl in Hreg.
  destruct (register_package_basenames m conf (PyStr.split "." m) root)
    as [root1 [e|]] eqn:H1; [discriminate|].
  destruct Hin as [<-|Hin].
  - pose proof (register_package_names_keeps conf rest root1
                  (PyStr.split "." m) conf
                  (register_package_basenames_registers _ _ _ _ _ H1)) as Hk.
    rewrite Hreg in Hk. exact Hk.
  - exact (IH root1 root' Hreg n Hin).
Qed.

(** What [register_packages] runs once the names are unwrapped. *)
Lemma register_packages_valid (package_names : list string)
    (conf : BeartypeConf) (root : PackageDict) :
  package_names <> [] ->
  first_invalid_name is_identifier package_names = None ->
  register_packages (NameIterable package_names) conf root
  = register_package_names conf package_names root.
Proof.
  intros Hne Hvalid. unfold ClawPackageNames.register_packages.
  destruct package_names as [|n rest]; [congruence|].
  cbn [is_falsy validated_names registered_names]. now rewrite Hvalid.
Qed.

Lemma register_packages_cases (package_names : PackageNames)
    (conf : BeartypeConf) (root : PackageDict) :
  register_packages package_names conf root
  = register_package_names conf (registered_names package_names) root
  \/ (register_packages package_names conf root).1 = root
     /\ (register_packages package_names conf root).2 <> None.
Proof.
  unfold ClawPackageNames.register_packages.
  destruct (is_falsy package_names);
    [right; split; [reflexivity|discriminate]|].
  destruct (first_invalid_name is_identifier (validated_names package_names));
    [right; split; [reflexivity|discriminate] | left; reflexivity].
Qed.

(** A one-shot iterator is read to its end by the validation loop: the
    registration loop then meets no name, and the call returns with the
    cache as it was. *)
Lemma register_packages_iterator (package_names : list string)
    (conf : BeartypeConf) (root : PackageDict) :
  first_invalid_name is_identifier package_names = None ->
  register_packages (NameIterator package_names) conf root = (root, None).
Proof.
  intros Hvalid. unfold ClawPackageNames.register_packages.
  cbn [is_falsy validated_names registered_names]. now rewrite Hvalid.
Qed.

(** X1.  Validation comes before any registration: when a name of the
    iterable is no identifier, the first such name is reported and the
    cache is the one before the call, however many valid names precede or
    follow it. *)
Theorem register_packages_validates_first
    (pre post : list string) (bad : string) (conf : BeartypeConf)
    (root : PackageDict) :
  Forall (fun n => is_identifier n = true) pre ->
  is_identifier bad = false ->
  register_packages (NameIterable (pre ++ bad :: post)) conf root
  = (root, Some (PackageNameInvalid bad)).
Proof.
  intros Hpre Hbad. unfold ClawPackageNames.register_packages.
  cbn [validated_names].
  rewrite (first_invalid_name_app pre post bad Hpre Hbad).
  destruct pre; reflexivity.
Qed.

(** X2.  No call of [register_packages] changes the slot of the root
    cache, nor therefore the answer of [is_package_registered] for any
    name. *)
Theorem register_packages_keeps_queries
    (package_names : PackageNames) (conf : BeartypeConf) (root : PackageDict) :
  let root' := (register_packages package_names conf root).1 in
  conf_if_registered root' = conf_if_registered root
  /\ forall package_name,
       is_package_registered root' package_name
       = is_package_registered root package_name.
Proof.
  cbv zeta.
  assert (Hconf : conf_if_registered
            (register_packages package_names conf root).1
          = conf_if_registered root).
  { destruct (register_packages_cases package_names conf root)
      as [E|[E _]];
      rewrite E; [apply register_package_names_conf | reflexivity]. }
  split; [exact Hconf|].
  intros package_name. now rewrite !is_package_registered_root, Hconf.
Qed.

(** X3.  When [register_packages] returns on a collection of names (a
    list, a tuple: not a one-shot iterator, which the validation loop
    exhausts), every name of the collection leads to a node carrying the
    configuration passed. *)
Theorem register_packages_registers_all
    (package_names : list string) (conf : BeartypeConf)
    (root root' : PackageDict) (package_name : string) :
  register_packages (NameIterable package_names) conf root = (root', None) ->
  In package_name package_names ->
  exists node,
    node_at (PyStr.split "." package_name) root' = Some node
    /\ conf_if_registered node = Some conf.
Proof.
  intros Hreg Hin.
  destruct (register_packages_cases (NameIterable package_names) conf root)
    as [E|[_ E]].
  - rewrite E in Hreg.
    exact (register_package_names_registers conf package_names root root'
             Hreg package_name Hin).
  - rewrite Hreg in E. now destruct E.
Qed.

(** X4.  The cache is append-only: a node configured before a call of
    [register_packages] is configured with the same configuration after
    it, whether the call returns or raises. *)
Theorem register_packages_append_only
    (package_names : PackageNames) (conf : BeartypeConf) (root : PackageDict)
    (bs : list string) (node : PackageDict) (c : BeartypeConf) :
  node_at bs root = Some node ->
  conf_if_registered node = Some c ->
  exists node',
    node_at bs (register_packages package_names conf root).1 = Some node'
    /\ conf_if_registered node' = Some c.
Proof.
  intros Hnode Hconf.
  destruct (register_packages_cases package_names conf root)
    as [E|[E _]];
    rewrite E.
  - apply register_package_names_keeps. eauto.
  - eauto.
Qed.

(** X5.  No rollback, on a collection of names (a list, a tuple: not a
    one-shot iterator): when the names before [bad] register and [bad]
    then meets a node configured otherwise, the call raises for [bad] and
    the cache is the one holding the registrations of the names before it;
    the names after [bad] are not looked at. *)
Theorem register_packages_partial
    (pre post : list string) (bad : string) (conf conf_curr : BeartypeConf)
    (root root1 node : PackageDict) :
  first_invalid_name is_identifier (pre ++ bad :: post) = None ->
  register_package_names conf pre root = (root1, None) ->
  node_at (PyStr.split "." bad) root1 = Some node ->
  conf_if_registered node = Some conf_curr ->
  conf_curr <> conf ->
  register_packages (NameIterable (pre ++ bad :: post)) conf root
  = (root1, Some (PackageConfDiffers bad conf_curr conf)).
Proof.
  intros Hvalid Hpre Hnode Hconf Hne.
  rewrite register_packages_valid; [|now destruct pre | exact Hvalid].
  rewrite register_package_names_app, Hpre. simpl.
  rewrite (register_package_basenames_configured _ _ _ _ _ _ Hnode Hconf).
  destruct (decide (conf_curr = conf)); [contradiction | reflexivity].
Qed.

(** X6.  After a call of [register_packages] on a non-empty collection
    of names (a list, a tuple: not a one-shot iterator) that all pass the
    validation, the emptiness query answers true, whether the call
    returned or raised on a conflict. *)
Theorem register_packages_then_any
    (package_names : list string) (conf : BeartypeConf) (root : PackageDict) :
  package_names <> [] ->
  first_invalid_name is_identifier package_names = None ->
  is_packages_registered_any
    (register_packages (NameIterable package_names) conf root).1 = true.
Proof.
  intros Hne Hvalid.
  rewrite (register_packages_valid _ _ _ Hne Hvalid).
  destruct package_names as [|n rest]; [congruence|].
  destruct (PyStr.split "." n) as [|b bs] eqn:Hsplit;
    [now destruct (split_not_nil "." n)|].
  assert (Hkey : is_Some (subpackages
            (register_package_names conf (n :: rest) root).1 !! b)).
  { simpl. rewrite Hsplit.
    pose proof (register_package_basenames_first_key n conf b bs root) as H1.
    destruct (register_package_basenames n conf (b :: bs) root)
      as [root1 [e|]]; simpl in *; [exact H1|].
    now apply register_package_names_keys. }
  unfold is_packages_registered_any.
  rewrite bool_decide_eq_false_2; [reflexivity|].
  intros Hempty. rewrite Hempty, lookup_empty in Hkey.
  destruct Hkey as [x Hx]. discriminate.
Qed.

(** X7.  Registration is idempotent: once a call with one name has
    returned, the same call on the cache it left returns again and leaves
    that cache as it is. *)
Theorem register_packages_idempotent
    (package_name : string) (conf : BeartypeConf) (root root' : PackageDict) :
  register_packages (NameStr package_name) conf root = (root', None) ->
  register_packages (NameStr package_name) conf root' = (root', None).
Proof.
  unfold ClawPackageNames.register_packages.
  cbn [is_falsy validated_names registered_names first_invalid_name].
  destruct (is_identifier package_name); [|discriminate].
  cbn [register_package_names]. intros Hreg.
  destruct (register_package_basenames package_name conf
              (PyStr.split "." package_name) root) as [r [e|]] eqn:H1;
    [discriminate|].
  injection Hreg as ->.
  destruct (register_package_basenames_registers _ _ _ _ _ H1)
    as (node & Hnode & Hconf).
  rewrite (register_package_basenames_configured _ _ _ _ _ _ Hnode Hconf).
  destruct (decide (conf = conf)); [reflexivity | contradiction].
Qed.

End ClawPackageNamesMore.

Lemma register_packages_validates_first_witness :
  ClawPackageNames.register_packages PyStr.is_dotted_identifier
    (ClawPackageNames.NameIterable ["pkg"; "1bad"; "ok"]) 7
    ClawPackageNames.empty_PackageDict
  = (ClawPackageNames.empty_PackageDict,
     Some (ClawPackageNames.PackageNameInvalid "1bad")).
Proof.
  apply (register_packages_validates_first PyStr.is_dotted_identifier
           ["pkg"] ["ok"] "1bad" 7 ClawPackageNames.empty_PackageDict).
  - repeat constructor.
  - reflexivity.
Defined.

Lemma register_packages_registers_all_witness :
  let root' :=
    (ClawPackageNames.register_packages PyStr.is_dotted_identifier
       (ClawPackageNames.NameIterable ["pkg.sub"; "other"]) 7
       ClawPackageNames.empty_PackageDict).1 in
  exists node : ClawPackageNames._PackageBasenameToSubpackagesDict nat,
    ClawPackageNames.node_at (PyStr.split "." "pkg.sub") root' = Some node
    /\ ClawPackageNames.conf_if_registered node = Some 7.
Proof.
  intros root'.
  apply (register_packages_registers_all PyStr.is_dotted_identifier
           ["pkg.sub"; "other"] 7 ClawPackageNames.empty_PackageDict root'
           "pkg.sub").
  - reflexivity.
  - simpl. auto.
Defined.

Lemma register_packages_append_only_witness :
  let root : ClawPackageNames._PackageBasenameToSubpackagesDict nat :=
    ClawPackageNames.mk_PackageDict None
      {[ "pkg" := ClawPackageNames.mk_PackageDict (Some 1) ∅ ]} in
  exists node',
    ClawPackageNames.node_at ["pkg"]
      (ClawPackageNames.register_packages PyStr.is_dotted_identifier
         (ClawPackageNames.NameStr "pkg.sub") 2 root).1 = Some node'
    /\ ClawPackageNames.conf_if_registered node' = Some 1.
Proof.
  intros root.
  apply (register_packages_append_only PyStr.is_dotted_identifier
           (ClawPackageNames.NameStr "pkg.sub") 2 root ["pkg"]
           (ClawPackageNames.mk_PackageDict (Some 1) ∅) 1);
    reflexivity.
Defined.

Lemma register_packages_partial_witness :
  let root : ClawPackageNames._PackageBasenameToSubpackagesDict nat :=
    ClawPackageNames.mk_PackageDict None
      {[ "pkg" := ClawPackageNames.mk_PackageDict (Some 1) ∅ ]} in
  let root1 :=
    (ClawPackageNames.register_package_names 2 ["other"] root).1 in
  ClawPackageNames.register_packages PyStr.is_dotted_identifier
    (ClawPackageNames.NameIterable ["other"; "pkg"; "third"]) 2 root
  = (root1, Some (ClawPackageNames.PackageConfDiffers "pkg" 1 2)).
Proof.
  intros root root1.
  apply (register_packages_partial PyStr.is_dotted_identifier
           ["other"] ["third"] "pkg" 2 1 root root1
           (ClawPackageNames.mk_PackageDict (Some 1) ∅)).
  - reflexivity.
  - reflexivity.
  - reflexivity.
  - reflexivity.
  - discriminate.
Defined.

Lemma register_packages_then_any_witness :
  ClawPackageNames.is_packages_registered_any
    (ClawPackageNames.register_packages PyStr.is_dotted_identifier
       (ClawPackageNames.NameIterable ["pkg"]) 7
       (ClawPackageNames.empty_PackageDict (BeartypeConf := nat))).1 = true.
Proof.
  apply (register_packages_then_any PyStr.is_dotted_identifier ["pkg"] 7
           ClawPackageNames.empty_PackageDict).
  - discriminate.
  - reflexivity.
Defined.

Lemma register_packages_idempotent_witness :
  let root' :=
    (ClawPackageNames.register_packages PyStr.is_dotted_identifier
       (ClawPackageNames.NameStr "pkg.sub") 7
       ClawPackageNames.empty_PackageDict).1 in
  ClawPackageNames.register_packages PyStr.is_dotted_identifier
    (ClawPackageNames.NameStr "pkg.sub") 7 root' = (root', None).
Proof.
  intros root'.
  apply (register_packages_idempotent PyStr.is_dotted_identifier "pkg.sub" 7
           ClawPackageNames.empty_PackageDict root').
  reflexivity.
Defined.

(** ** The syntax tree rewriter, continued *)

Section ClawAstMore.

Import ClawAst ClawAstMeasures.

Variable IS_PYTHON_AT_LEAST_3_8 : bool.

Local Abbreviation visit := (ClawAst.visit IS_PYTHON_AT_LEAST_3_8).
Local Abbreviation visit_Module := (ClawAst.visit_Module IS_PYTHON_AT_LEAST_3_8).
Local Abbreviation copy_loc := (ClawAst.copy_loc IS_PYTHON_AT_LEAST_3_8).
Local Abbreviation decorate := (ClawAst.decorate IS_PYTHON_AT_LEAST_3_8).

(** Induction over statements and the statements they hold. *)
Lemma stmt_nested_ind (P : stmt -> Prop) :
  (forall name fargs body decorator_list returns l,
     Forall P body -> P (FunctionDef name fargs body decorator_list returns l)) ->
  (forall name fargs body decorator_list returns l,
     Forall P body ->
     P (AsyncFunctionDef name fargs body decorator_list returns l)) ->
  (forall name body decorator_list l,
     Forall P body -> P (ClassDef name body decorator_list l)) ->
  (forall test body orelse l,
     Forall P body -> Forall P orelse -> P (If test body orelse l)) ->
  (forall value l, P (Expr value l)) ->
  (forall module names l, P (ImportFrom module names l)) ->
  (forall l, P (OtherStmt l)) ->
  forall s, P s.
Proof.
  intros HF HA HC HI HE HM HO. fix IH 1. intros s.
  destruct s as [name fargs body ds returns l | name fargs body ds returns l
                | name body ds l | test body orelse l | value l
                | module names l | l].
  - apply HF. induction body as [|x body IHb]; constructor; [apply IH | exact IHb].
  - apply HA. induction body as [|x body IHb]; constructor; [apply IH | exact IHb].
  - apply HC. induction body as [|x body IHb]; constructor; [apply IH | exact IHb].
  - apply HI.
    + induction body as [|x body IHb]; constructor; [apply IH | exact IHb].
    + induction orelse as [|x orelse IHb]; constructor; [apply IH | exact IHb].
  - apply HE.
  - apply HM.
  - apply HO.
Qed.

(** The decorator list after [visit_FunctionDef], by typedness. *)
Lemma decorate_is_typed (fargs : arguments) (decorator_list : list expr)
    (returns : option expr) (l : loc) :
  decorate fargs decorator_list returns l
  = if is_typed fargs returns
    then decorator_list ++ [Name "beartype_object_safe" Load (copy_loc l)]
    else decorator_list.
Proof.
  unfold ClawAst.decorate, is_typed.
  rewrite is_args_typed_loop_existsb. destruct returns; reflexivity.
Qed.

Lemma map_undecorate_visit (body : list stmt) :
  Forall (fun s => undecorate (visit s) = s) body ->
  List.map undecorate (List.map visit body) = body.
Proof.
  induction 1 as [|s body Hs _ IH]; simpl; [reflexivity|].
  now rewrite Hs, IH.
Qed.

(** X10.  Visiting loses nothing: taking the last decorator away from
    every typed synchronous function definition of the visited statement
    gives the statement back.  Names, parameters, annotations, positions
    and the statements that are no function definitions are untouched. *)
Theorem undecorate_visit (s : stmt) :
  undecorate (visit s) = s.
Proof.
  induction s using stmt_nested_ind; simpl.
  - rewrite (map_undecorate_visit _ H), decorate_is_typed.
    destruct (is_typed fargs returns); [|reflexivity].
    now rewrite removelast_last.
  - now rewrite (map_undecorate_visit _ H).
  - now rewrite (map_undecorate_visit _ H).
  - now rewrite (map_undecorate_visit _ H), (map_undecorate_visit _ H0).
  - reflexivity.
  - reflexivity.
  - reflexivity.
Qed.

End ClawAstMore.

(** ** The hint registry, continued *)

Section TypistryMore.

Import Typistry TypistryInvariants.

Variable PARAM_NAME_TYPISTRY : string.
Variable is_module_attr_name : string -> bool.
Variable get_object_classname : pyclass -> string.
Variable get_object_class_basename : pyclass -> string.
Variable is_class_builtin : pyclass -> bool.
Variable is_classname_builtin : string -> bool.
Variable is_plain_class : pyobj -> bool.
Variable py_hash : list pyobj -> Z.
Variable tuple_of_set : list pyobj -> list pyobj.

Local Abbreviation __setitem__ :=
  (Typistry.__setitem__ get_object_classname is_classname_builtin
     is_plain_class).
Local Abbreviation __getitem__ := (Typistry.__getitem__ is_module_attr_name).
Local Abbreviation import_module_attr :=
  (Typistry.import_module_attr is_module_attr_name).
Local Abbreviation import_module_attr_or_none :=
  (Typistry.import_module_attr_or_none is_module_attr_name).
Local Abbreviation hint_expr := (Typistry.hint_expr PARAM_NAME_TYPISTRY).
Local Abbreviation register_typistry_type :=
  (Typistry.register_typistry_type PARAM_NAME_TYPISTRY get_object_classname
     get_object_class_basename is_class_builtin is_classname_builtin
     is_plain_class).
Local Abbreviation register_typistry_tuple :=
  (Typistry.register_typistry_tuple PARAM_NAME_TYPISTRY get_object_classname
     get_object_class_basename is_class_builtin is_classname_builtin
     is_plain_class py_hash tuple_of_set).
Local Abbreviation is_hint_nonpep_tuple :=
  (Typistry.is_hint_nonpep_tuple is_plain_class).
Local Abbreviation entry_ok :=
  (TypistryInvariants.entry_ok get_object_classname is_classname_builtin
     is_plain_class).
Local Abbreviation registry_ok :=
  (TypistryInvariants.registry_ok get_object_classname is_classname_builtin
     is_plain_class).

(** The state [st'] is [st] with one pair let in by the guard. *)
Local Abbreviation stored st st' :=
  (exists (name : string) (hint : pyobj),
     __setitem__ (bear_typistry st) (PyStr name) hint
     = inr (bear_typistry st')
     /\ imported st' = imported st).

(** What an insertion that returns has done. *)
Lemma setitem_inr_inv (self d : gmap string pyobj) (hint_name hint : pyobj) :
  __setitem__ self hint_name hint = inr d ->
  exists name,
    hint_name = PyStr name /\ self !! name = None
    /\ d = <[name := hint]> self /\ entry_ok name hint.
Proof.
  unfold Typistry.__setitem__, TypistryInvariants.entry_ok.
  destruct hint_name as [| name | n | kc | kitems]; try discriminate.
  destruct (self !! name) as [prior|] eqn:Hkey; [discriminate|].
  destruct hint as [| s | n | c | items]; try discriminate.
  - destruct (bool_decide_reflect (name = get_object_classname c)) as [E|NE];
      simpl.
    + intros [= <-]. exists name.
      split; [reflexivity|]. split; [exact Hkey|]. split; [reflexivity|].
      left. exists c. split; [reflexivity|]. left. exact E.
    + destruct (is_classname_builtin (get_object_classname c)) eqn:Hb;
        simpl; [|discriminate].
      intros [= <-]. exists name.
      split; [reflexivity|]. split; [exact Hkey|]. split; [reflexivity|].
      left. exists c. split; [reflexivity|]. right. exact Hb.
  - destruct (Typistry.is_hint_nonpep_tuple is_plain_class items) eqn:Hnp;
      simpl; [|discriminate].
    destruct (PyStr.startswith name _TYPISTRY_HINT_NAME_TUPLE_PREFIX)
      eqn:Hpre; simpl; [|discriminate].
    intros [= <-]. exists name.
    split; [reflexivity|]. split; [exact Hkey|]. split; [reflexivity|].
    right. exists items. split; [reflexivity|]. split; [exact Hpre | exact Hnp].
Qed.

Lemma registry_ok_insert (self : gmap string pyobj) (name : string)
    (hint : pyobj) :
  registry_ok self -> entry_ok name hint ->
  registry_ok (<[name := hint]> self).
Proof.
  intros Hok Hentry k v Hk.
  destruct (decide (name = k)) as [<-|Hne].
  - rewrite lookup_insert_eq in Hk. injection Hk as <-. exact Hentry.
  - rewrite lookup_insert_ne in Hk by exact Hne. exact (Hok k v Hk).
Qed.

Lemma registry_ok_empty : registry_ok ∅.
Proof. intros k v Hk. rewrite lookup_empty in Hk. discriminate. Qed.

(** The steps of the two storing registrars: the state is left as it is,
    or one pair is let in by the guard and an expression is returned. *)
Lemma register_typistry_type_step (hint : pyobj) (st st' : state)
    (r : exn + string) :
  register_typistry_type hint st = (st', r) ->
  st' = st \/ (stored st st' /\ exists e, r = inr e).
Proof.
  unfold Typistry.register_typistry_type.
  destruct hint as [| s | n | c | items];
    try (intros [= <- <-]; left; reflexivity).
  destruct (is_class_builtin c); [intros [= <- <-]; left; reflexivity|].
  destruct (__setitem__ (bear_typistry st)
              (PyStr (get_object_classname c)) (PyType c))
    as [e|d] eqn:Hset.
  - intros [= <- <-]. left; reflexivity.
  - intros [= <- <-]. right. split; [|eauto].
    exists (get_object_classname c), (PyType c). split; [exact Hset|reflexivity].
Qed.

Lemma register_typistry_tuple_step (fuel : nat) (hint : pyobj)
    (is_types_unique : bool) (st st' : state) (r : exn + string) :
  register_typistry_tuple fuel hint is_types_unique st = Some (st', r) ->
  st' = st \/ (stored st st' /\ exists e, r = inr e).
Proof.
  assert (Hgen : forall items,
    match disambiguate fuel (bear_typistry st) items.1 with
    | None => None
    | Some hint_name =>
        match __setitem__ (bear_typistry st) (PyStr hint_name)
                (PyTuple items.2) with
        | inl e => Some (st, inl e)
        | inr d => Some (mk_state d (imported st), inr (hint_expr hint_name))
        end
    end = Some (st', r) ->
    st' = st \/ (stored st st' /\ exists e, r = inr e)).
  { intros [base items]; cbn [fst snd].
    destruct (disambiguate fuel (bear_typistry st) base) as [name|];
      [|discriminate].
    destruct (__setitem__ (bear_typistry st) (PyStr name) (PyTuple items))
      as [e|d] eqn:Hset.
    - intros H. simplify_eq. left; reflexivity.
    - intros H. simplify_eq. right. split; [|eauto].
      exists name, (PyTuple items). split; [exact Hset|reflexivity]. }
  unfold Typistry.register_typistry_tuple.
  destruct hint as [| s | n | c | items];
    try (intros H; simplify_eq; left; reflexivity).
  destruct items as [|a [|b rest]].
  - exact (Hgen (_, _)).
  - intros [= H]. exact (register_typistry_type_step a st st' r H).
  - exact (Hgen (_, _)).
Qed.

(** X11.  The guard of insertions keeps the registry well formed: when
    every entry is a class under its own name (or a class with the name of
    a built-in one) or a tuple of plain classes under a prefixed key, so is
    every entry after an insertion that returns. *)
Theorem setitem_keeps_registry_ok
    (self d : gmap string pyobj) (hint_name hint : pyobj) :
  registry_ok self ->
  __setitem__ self hint_name hint = inr d ->
  registry_ok d.
Proof.
  intros Hok Hset.
  destruct (setitem_inr_inv self d hint_name hint Hset)
    as (name & _ & _ & -> & Hentry).
  now apply registry_ok_insert.
Qed.

(** X12.  Both storing registrars keep the registry well formed, whatever
    they are passed and whether they return or raise. *)
Theorem registrars_keep_registry_ok
    (fuel : nat) (hint : pyobj) (is_types_unique : bool) (st st' : state)
    (r : exn + string) :
  registry_ok (bear_typistry st) ->
  register_typistry_type hint st = (st', r)
  \/ register_typistry_tuple fuel hint is_types_unique st = Some (st', r) ->
  registry_ok (bear_typistry st').
Proof.
  intros Hok Hrun.
  assert (Hstep : st' = st \/ (stored st st' /\ exists e, r = inr e)).
  { destruct Hrun as [H|H];
      [exact (register_typistry_type_step _ _ _ _ H)
      |exact (register_typistry_tuple_step _ _ _ _ _ _ H)]. }
  destruct Hstep as [->|[(name & v & Hset & _) _]]; [exact Hok|].
  destruct (setitem_inr_inv _ _ _ _ Hset) as (name' & _ & _ & -> & Hentry).
  now apply registry_ok_insert.
Qed.

(** X13.  The registrars never remove nor overwrite: an entry of the
    registry before a call is the same entry after it, and the log of
    imports is untouched (no registrar imports anything). *)
Theorem registrars_never_overwrite
    (fuel : nat) (hint : pyobj) (is_types_unique : bool) (st st' : state)
    (r : exn + string) :
  register_typistry_type hint st = (st', r)
  \/ register_typistry_tuple fuel hint is_types_unique st = Some (st', r) ->
  imported st' = imported st
  /\ forall key value,
       bear_typistry st !! key = Some value ->
       bear_typistry st' !! key = Some value.
Proof.
  intros Hrun.
  assert (Hstep : st' = st \/ (stored st st' /\ exists e, r = inr e)).
  { destruct Hrun as [H|H];
      [exact (register_typistry_type_step _ _ _ _ H)
      |exact (register_typistry_tuple_step _ _ _ _ _ _ H)]. }
  destruct Hstep as [->|[(name & v & Hset & Himp) _]]; [auto|].
  split; [exact Himp|].
  destruct (setitem_inr_inv _ _ _ _ Hset) as (name' & _ & Hfree & -> & _).
  intros key value Hkey.
  rewrite lookup_insert_ne; [exact Hkey | congruence].
Qed.

(** X14.  A registration that raises has no effect: the registry and the
    log of imports are the ones before the call. *)
Theorem registrars_raise_without_effect
    (fuel : nat) (hint : pyobj) (is_types_unique : bool) (st st' : state)
    (e : exn) :
  register_typistry_type hint st = (st', inl e)
  \/ register_typistry_tuple fuel hint is_types_unique st = Some (st', inl e) ->
  st' = st.
Proof.
  intros Hrun.
  assert (Hstep : st' = st
            \/ (stored st st' /\ exists x : string, @inl exn string e = inr x)).
  { destruct Hrun as [H|H];
      [exact (register_typistry_type_step _ _ _ _ H)
      |exact (register_typistry_tuple_step _ _ _ _ _ _ H)]. }
  destruct Hstep as [->|[_ [x Hx]]]; [reflexivity | discriminate].
Qed.

(** The insertion of a class under its own name, the key being free. *)
Lemma setitem_class_fresh (self : gmap string pyobj) (c : pyclass) :
  self !! get_object_classname c = None ->
  __setitem__ self (PyStr (get_object_classname c)) (PyType c)
  = inr (<[get_object_classname c := PyType c]> self).
Proof.
  intros Hfree. unfold Typistry.__setitem__. rewrite Hfree.
  rewrite bool_decide_eq_true_2 by reflexivity. reflexivity.
Qed.

(** X15.  Registering a class that is not built in, its name being free
    and made of characters [repr] leaves as they are, stores the class
    under its name and returns the expression of that name; a lookup of
    the name then returns the class in every world and imports nothing. *)
Theorem register_typistry_type_then_lookup
    (c : pyclass) (st : state) (w : world) :
  PyStr.all_chars PyStr.is_plain_char (get_object_classname c) = true ->
  is_class_builtin c = false ->
  bear_typistry st !! get_object_classname c = None ->
  let st' :=
    mk_state (<[get_object_classname c := PyType c]> (bear_typistry st))
      (imported st) in
  register_typistry_type (PyType c) st
  = (st', inr (hint_expr (get_object_classname c)))
  /\ __getitem__ w (get_object_classname c) st' = (st', inr (PyType c)).
Proof.
  intros _ Hb Hfree st'. split.
  - unfold Typistry.register_typistry_type.
    rewrite Hb, (setitem_class_fresh _ _ Hfree). reflexivity.
  - unfold Typistry.__getitem__, st'; simpl.
    rewrite lookup_insert_eq. reflexivity.
Qed.

(** X16.  The body of the registrar is not idempotent: run again on the
    state it left, it raises the exception of keys already registered and
    changes nothing.  Only the memoization around it makes a second
    registration of a class harmless. *)
Theorem register_typistry_type_twice_raises (c : pyclass) (st : state) :
  is_class_builtin c = false ->
  bear_typistry st !! get_object_classname c = None ->
  let st' :=
    mk_state (<[get_object_classname c := PyType c]> (bear_typistry st))
      (imported st) in
  register_typistry_type (PyType c) st'
  = (st', inl (_BeartypeDecorBeartypistryException
                 (KeyAlreadyRegistered (get_object_classname c)
                    (PyType c) (PyType c)))).
Proof.
  intros Hb Hfree st'.
  unfold Typistry.register_typistry_type, Typistry.__setitem__, st'; simpl.
  rewrite Hb, lookup_insert_eq. reflexivity.
Qed.

(** The disambiguation loop gives the same key under any two amounts of
    fuel above the size of the registry. *)
Lemma disambiguate_fuel (f1 f2 : nat) (self : gmap string pyobj)
    (name : string) :
  size self < f1 -> size self < f2 ->
  disambiguate f1 self name = disambiguate f2 self name.
Proof.
  intros H1 H2.
  destruct (disambiguate_total f1 self name H1) as (n1 & E1 & Hfree1 & Hused1).
  destruct (disambiguate_total f2 self name H2) as (n2 & E2 & Hfree2 & Hused2).
  rewrite E1, E2.
  destruct (Nat.lt_trichotomy n1 n2) as [Hlt|[->|Hgt]]; [|reflexivity|].
  - destruct (Hused2 n1 Hlt) as [v Hv]. congruence.
  - destruct (Hused1 n2 Hgt) as [v Hv]. congruence.
Qed.

(** X17.  The registration of tuples always ends: with more fuel than the
    registry has keys the loop is over, for every argument, and the
    outcome does not depend on the fuel. *)
Theorem register_typistry_tuple_total
    (fuel : nat) (hint : pyobj) (is_types_unique : bool) (st : state) :
  size (bear_typistry st) < fuel ->
  is_Some (register_typistry_tuple fuel hint is_types_unique st)
  /\ register_typistry_tuple fuel hint is_types_unique st
     = register_typistry_tuple (enough_fuel st) hint is_types_unique st.
Proof.
  intros Hfuel.
  assert (Henough : size (bear_typistry st) < enough_fuel st)
    by (unfold enough_fuel; lia).
  assert (Hgen : forall base items,
    is_Some
      (match disambiguate fuel (bear_typistry st) base with
       | None => None
       | Some hint_name =>
           match __setitem__ (bear_typistry st) (PyStr hint_name)
                   (PyTuple items) with
           | inl e => Some (st, inl e)
           | inr d =>
               Some (mk_state d (imported st), inr (hint_expr hint_name))
           end
       end)).
  { intros base items.
    destruct (disambiguate_total fuel (bear_typistry st) base Hfuel)
      as (n & -> & _).
    destruct (__setitem__ (bear_typistry st) (PyStr (base ++ tildes n))
                (PyTuple items)); eauto. }
  unfold Typistry.register_typistry_tuple.
  destruct hint as [| s | n | c | items]; try (split; [eauto | reflexivity]).
  destruct items as [|a [|b rest]].
  - split; [apply Hgen|].
    now rewrite (disambiguate_fuel fuel (enough_fuel st) _ _ Hfuel Henough).
  - split; [eauto | reflexivity].
  - split; [apply Hgen|].
    now rewrite (disambiguate_fuel fuel (enough_fuel st) _ _ Hfuel Henough).
Qed.

(** X18.  An attribute bound to [None] cannot be imported: for a valid
    name whose module is importable and whose attribute is absent or is
    [None], [import_module_attr_or_none] returns [None] and
    [import_module_attr] raises the exception of attributes not found. *)
Theorem import_module_attr_None
    (w : world) (exception_cls : import_failure -> exn)
    (module_attr_name : string) (attrs : gmap string pyobj) (st : state) :
  let module_name := (PyStr.rpartition "." module_attr_name).1.1 in
  let module_attr_basename := (PyStr.rpartition "." module_attr_name).2 in
  is_module_attr_name module_attr_name = true ->
  module_name <> "" ->
  w !! module_name = Some (Importable attrs) ->
  getattr_or_None attrs module_attr_basename = PyNone ->
  import_module_attr_or_none w exception_cls module_attr_name st
  = (logged module_name st, inr PyNone)
  /\ import_module_attr w exception_cls module_attr_name st
     = (logged module_name st,
        inl (exception_cls (AttrNotFound module_attr_name))).
Proof.
  intros module_name module_attr_basename Hvalid Hname Hmod Hattr.
  assert (Hnone : import_module_attr_or_none w exception_cls
                    module_attr_name st
                  = (logged module_name st, inr PyNone)).
  { unfold Typistry.import_module_attr_or_none, Typistry.import_module.
    rewrite Hvalid; simpl. subst module_name module_attr_basename.
    destruct (PyStr.rpartition "." module_attr_name) as [[m sep] b];
      simpl in *.
    rewrite bool_decide_eq_false_2 by exact Hname.
    rewrite Hmod, Hattr. reflexivity. }
  split; [exact Hnone|].
  unfold Typistry.import_module_attr. rewrite Hnone. reflexivity.
Qed.

(** X19.  The importers pass a name to [importlib.import_module] at most
    once: the part of the name before its last dot when the name passes
    the validation, and nothing otherwise.  This holds in every world and
    whatever they return or raise. *)
Theorem import_module_attr_logs_once
    (w : world) (exception_cls : import_failure -> exn)
    (module_attr_name : string) (st : state) :
  let log :=
    imported st
    ++ (if is_module_attr_name module_attr_name
        then [(PyStr.rpartition "." module_attr_name).1.1]
        else []) in
  imported (import_module_attr_or_none w exception_cls module_attr_name st).1
  = log
  /\ imported (import_module_attr w exception_cls module_attr_name st).1
     = log.
Proof.
  cbv zeta.
  assert (Hnone :
    imported
      (import_module_attr_or_none w exception_cls module_attr_name st).1
    = imported st
      ++ (if is_module_attr_name module_attr_name
          then [(PyStr.rpartition "." module_attr_name).1.1]
          else [])).
  { unfold Typistry.import_module_attr_or_none, Typistry.import_module.
    destruct (is_module_attr_name module_attr_name); simpl;
      [|now rewrite app_nil_r].
    destruct (PyStr.rpartition "." module_attr_name) as [[m sep] b]; simpl.
    destruct (bool_decide (m = "")); [reflexivity|].
    destruct (w !! m) as [[raised|attrs|]|]; reflexivity. }
  split; [exact Hnone|].
  unfold Typistry.import_module_attr. rewrite <- Hnone.
  destruct (import_module_attr_or_none w exception_cls module_attr_name st)
    as [st1 [e|[| | | |]]]; reflexivity.
Qed.

(** X20.  An exception raised by the code of the module a forward
    reference points into reaches the caller of the lookup as it is, not
    as the exception of unresolvable references, unless it is a
    [ModuleNotFoundError]: that one is caught by [import_module] and the
    lookup raises the exception of unresolvable references, as for a
    module that does not exist. *)
Theorem getitem_propagates_module_exception
    (w : world) (st : state) (name raised : string) :
  let module_name := (PyStr.rpartition "." name).1.1 in
  is_module_attr_name name = true ->
  bear_typistry st !! name = None ->
  module_name <> "" ->
  (w !! module_name = Some (Unimportable raised) ->
   (__getitem__ w name st).2 = inl (ModuleScopeException raised))
  /\ (w !! module_name = Some MissingDependency ->
      (__getitem__ w name st).2
      = inl (BeartypeCallHintForwardRefException
               (ModuleNotFound module_name))).
Proof.
  intros module_name Hvalid Habsent Hname.
  unfold Typistry.__getitem__, Typistry.__missing__,
    Typistry.import_module_attr, Typistry.import_module_attr_or_none,
    Typistry.import_module.
  rewrite Habsent, Hvalid; simpl. subst module_name.
  destruct (PyStr.rpartition "." name) as [[m sep] b]; simpl in *.
  rewrite bool_decide_eq_false_2 by exact Hname.
  split; intros Hmod; rewrite Hmod; reflexivity.
Qed.

(** X21.  Over a well-formed registry a lookup that returns gives a class
    or a tuple of plain classes, in every world: what [isinstance] accepts
    as its second argument. *)
Theorem getitem_returns_class_or_tuple
    (w : world) (st st' : state) (key : string) (value : pyobj) :
  registry_ok (bear_typistry st) ->
  __getitem__ w key st = (st', inr value) ->
  (exists c, value = PyType c)
  \/ (exists items, value = PyTuple items
                    /\ is_hint_nonpep_tuple items = true).
Proof.
  intros Hok. unfold Typistry.__getitem__.
  destruct (bear_typistry st !! key) as [v|] eqn:Hkey.
  - intros H. simplify_eq.
    destruct (Hok key value Hkey) as [(c & -> & _)|(items & -> & _ & Hnp)];
      eauto.
  - unfold Typistry.__missing__.
    destruct (Typistry.import_module_attr is_module_attr_name w
                BeartypeCallHintForwardRefException key st)
      as [st1 [e|[| s | n | c | items]]]; intros H; simplify_eq.
    left. eauto.
Qed.

(** X22.  A tuple that is no 1-tuple and holds an item that is no plain
    class is refused by the guard once its key has been chosen: the
    registrar raises and stores nothing. *)
Theorem register_typistry_tuple_refuses
    (fuel : nat) (hint : list pyobj) (is_types_unique : bool) (st : state) :
  let items := if negb is_types_unique then tuple_of_set hint else hint in
  length hint <> 1 ->
  is_hint_nonpep_tuple items = false ->
  size (bear_typistry st) < fuel ->
  register_typistry_tuple fuel (PyTuple hint) is_types_unique st
  = Some (st, inl (_BeartypeDecorBeartypistryException
                     (TupleNotNonPep (PyTuple items)))).
Proof.
  intros items Hlen Hnp Hfuel.
  set (base := (_TYPISTRY_HINT_NAME_TUPLE_PREFIX
                  ++ PyStr.of_int (py_hash items))%string).
  destruct (disambiguate_total fuel (bear_typistry st) base Hfuel)
    as (n & Hrun & Hfree & _).
  assert (Hset : __setitem__ (bear_typistry st) (PyStr (base ++ tildes n))
                   (PyTuple items)
                 = inl (_BeartypeDecorBeartypistryException
                          (TupleNotNonPep (PyTuple items)))).
  { unfold Typistry.__setitem__. rewrite Hfree.
    unfold Typistry.is_hint_nonpep_tuple in *. rewrite Hnp. reflexivity. }
  unfold Typistry.register_typistry_tuple.
  destruct hint as [|a [|b rest]]; [| simpl in Hlen; lia |];
    fold items; fold base; rewrite Hrun, Hset; reflexivity.
Qed.

End TypistryMore.

(** ** Labels *)

Section TextLabelFacts.

Import TextLabel.

Context {object_ : Type}.
Variable trim_object_repr : object_ -> string.

(** A string is a prefix of itself extended. *)
Lemma startswith_app (a b : string) : PyStr.startswith (a ++ b) a = true.
Proof.
  unfold PyStr.startswith.
  induction a as [|c a IH]; [destruct b; reflexivity|].
  rewrite str_app_cons. simpl.
  destruct (ascii_dec c c) as [_|NE]; [exact IH | now destruct NE].
Qed.

(** The last character of a concatenation. *)
Lemma last_char_app (a b : string) :
  last (list_ascii_of_string (a ++ b))
  = match last (list_ascii_of_string b) with
    | Some c => Some c
    | None => last (list_ascii_of_string a)
    end.
Proof. rewrite list_ascii_of_string_app. apply last_app. Qed.

(** X23.  Every label of a parameter or of a return, with or without a
    value, begins with the label of the decorated callable. *)
Theorem labels_start_with_callable
    (func_name param_name : string) (value : object_) :
  let label := label_callable_decorated func_name in
  PyStr.startswith (label_callable_decorated_param func_name param_name)
    label = true
  /\ PyStr.startswith
       (label_callable_decorated_param_value trim_object_repr func_name
          param_name value) label = true
  /\ PyStr.startswith (label_callable_decorated_return func_name) label = true
  /\ PyStr.startswith
       (label_callable_decorated_return_value trim_object_repr func_name
          value) label = true.
Proof.
  cbv zeta.
  unfold label_callable_decorated_return_value,
    label_callable_decorated_return, label_callable_decorated_param_value,
    label_callable_decorated_param.
  rewrite (str_app_assoc (label_callable_decorated func_name) " return").
  repeat split; apply startswith_app.
Qed.

(** X24.  The label of a callable determines its name: callables of
    different names never share a label. *)
Theorem label_callable_decorated_inj (func_name func_name' : string) :
  label_callable_decorated func_name = label_callable_decorated func_name' ->
  func_name = func_name'.
Proof.
  unfold label_callable_decorated. intros E.
  apply (inj _) in E. now apply str_app_inv_tail in E.
Qed.

(** X25.  The label of a parameter is never the label of a return,
    whatever the callables and the name of the parameter: the former ends
    on a double quote, the latter on a letter. *)
Theorem label_param_is_no_label_return
    (func_name func_name' param_name : string) :
  label_callable_decorated_param func_name param_name
  <> label_callable_decorated_return func_name'.
Proof.
  intros E.
  apply (f_equal (fun s => last (list_ascii_of_string s))) in E.
  unfold label_callable_decorated_param, label_callable_decorated_return in E.
  rewrite !last_char_app in E. simpl in E. discriminate.
Qed.

End TextLabelFacts.

Lemma label_callable_decorated_inj_witness :
  "muh_func" = "muh_func".
Proof.
  apply (label_callable_decorated_inj "muh_func" "muh_func"). reflexivity.
Defined.

(** ** Runs of the registry on the sample collaborators *)

Lemma setitem_keeps_registry_ok_witness :
  TypistryInvariants.registry_ok Sample.get_object_classname
    Sample.is_classname_builtin Sample.is_plain_class
    (<["mymod.C" := Typistry.PyType Sample.class_C]> ∅).
Proof.
  exact (setitem_keeps_registry_ok Sample.get_object_classname
           Sample.is_classname_builtin Sample.is_plain_class ∅ _
           (Typistry.PyStr "mymod.C") (Typistry.PyType Sample.class_C)
           (registry_ok_empty _ _ _) eq_refl).
Defined.

Lemma registrars_keep_registry_ok_witness :
  TypistryInvariants.registry_ok Sample.get_object_classname
    Sample.is_classname_builtin Sample.is_plain_class
    (<["mymod.C" := Typistry.PyType Sample.class_C]> ∅).
Proof.
  exact (registrars_keep_registry_ok Sample.PARAM_NAME_TYPISTRY
           Sample.get_object_classname Sample.get_object_class_basename
           Sample.is_class_builtin Sample.is_classname_builtin
           Sample.is_plain_class Sample.py_hash Sample.tuple_of_set
           1 (Typistry.PyType Sample.class_C) true Sample.state0
           (Typistry.mk_state
              (<["mymod.C" := Typistry.PyType Sample.class_C]> ∅) [])
           (inr "__beartypistry['mymod.C']")
           (registry_ok_empty _ _ _) (or_introl eq_refl)).
Defined.

Lemma registrars_never_overwrite_witness :
  let st := Typistry.mk_state
              (<["mymod.C" := Typistry.PyType Sample.class_C]> ∅) [] in
  let st' := Typistry.mk_state
               (<["+42" := Typistry.PyTuple
                             [Typistry.PyType Sample.class_C;
                              Typistry.PyType Sample.class_D]]>
                  (Typistry.bear_typistry st)) [] in
  Typistry.imported st' = Typistry.imported st
  /\ forall key value,
       Typistry.bear_typistry st !! key = Some value ->
       Typistry.bear_typistry st' !! key = Some value.
Proof.
  intros st st'.
  apply (registrars_never_overwrite Sample.PARAM_NAME_TYPISTRY
           Sample.get_object_classname Sample.get_object_class_basename
           Sample.is_class_builtin Sample.is_classname_builtin
           Sample.is_plain_class Sample.py_hash Sample.tuple_of_set
           2 (Typistry.PyTuple [Typistry.PyType Sample.class_C;
                                Typistry.PyType Sample.class_D])
           true st st' (inr "__beartypistry['+42']")).
  right. reflexivity.
Defined.

Lemma registrars_raise_without_effect_witness :
  (Sample.register_typistry_tuple 1 (Typistry.PyInt 3) true Sample.state0)
  = Some (Sample.state0,
          inl (Typistry._BeartypeDecorBeartypistryException
                 (Typistry.HintNotTuple (Typistry.PyInt 3))))
  /\ match Sample.register_typistry_tuple 1 (Typistry.PyInt 3) true
            Sample.state0 with
     | Some (st', _) => st' = Sample.state0
     | None => False
     end.
Proof.
  split; [reflexivity|].
  exact (registrars_raise_without_effect Sample.PARAM_NAME_TYPISTRY
           Sample.get_object_classname Sample.get_object_class_basename
           Sample.is_class_builtin Sample.is_classname_builtin
           Sample.is_plain_class Sample.py_hash Sample.tuple_of_set
           1 (Typistry.PyInt 3) true Sample.state0 Sample.state0
           (Typistry._BeartypeDecorBeartypistryException
              (Typistry.HintNotTuple (Typistry.PyInt 3)))
           (or_intror eq_refl)).
Defined.

Lemma register_typistry_type_then_lookup_witness :
  let st' := Typistry.mk_state
               (<["mymod.C" := Typistry.PyType Sample.class_C]> ∅) [] in
  Typistry.register_typistry_type Sample.PARAM_NAME_TYPISTRY
    Sample.get_object_classname Sample.get_object_class_basename
    Sample.is_class_builtin Sample.is_classname_builtin Sample.is_plain_class
    (Typistry.PyType Sample.class_C) Sample.state0
  = (st', inr "__beartypistry['mymod.C']")
  /\ Sample.__getitem__ Sample.world_before "mymod.C" st'
     = (st', inr (Typistry.PyType Sample.class_C)).
Proof.
  exact (register_typistry_type_then_lookup Sample.PARAM_NAME_TYPISTRY
           PyStr.is_dotted_attr_name Sample.get_object_classname
           Sample.get_object_class_basename Sample.is_class_builtin
           Sample.is_classname_builtin Sample.is_plain_class
           Sample.class_C Sample.state0 Sample.world_before
           eq_refl eq_refl eq_refl).
Defined.

Lemma register_typistry_type_twice_raises_witness :
  let st' := Typistry.mk_state
               (<["mymod.C" := Typistry.PyType Sample.class_C]> ∅) [] in
  Typistry.register_typistry_type Sample.PARAM_NAME_TYPISTRY
    Sample.get_object_classname Sample.get_object_class_basename
    Sample.is_class_builtin Sample.is_classname_builtin Sample.is_plain_class
    (Typistry.PyType Sample.class_C) st'
  = (st', inl (Typistry._BeartypeDecorBeartypistryException
                 (Typistry.KeyAlreadyRegistered "mymod.C"
                    (Typistry.PyType Sample.class_C)
                    (Typistry.PyType Sample.class_C)))).
Proof.
  exact (register_typistry_type_twice_raises Sample.PARAM_NAME_TYPISTRY
           Sample.get_object_classname Sample.get_object_class_basename
           Sample.is_class_builtin Sample.is_classname_builtin
           Sample.is_plain_class Sample.class_C Sample.state0
           eq_refl eq_refl).
Defined.

Lemma register_typistry_tuple_total_witness :
  let hint := Typistry.PyTuple [Typistry.PyType Sample.class_C;
                                Typistry.PyType Sample.class_D] in
  is_Some (Sample.register_typistry_tuple 5 hint true Sample.state0)
  /\ Sample.register_typistry_tuple 5 hint true Sample.state0
     = Sample.register_typistry_tuple (Typistry.enough_fuel Sample.state0)
         hint true Sample.state0.
Proof.
  intros hint.
  apply (register_typistry_tuple_total Sample.PARAM_NAME_TYPISTRY
           Sample.get_object_classname Sample.get_object_class_basename
           Sample.is_class_builtin Sample.is_classname_builtin
           Sample.is_plain_class Sample.py_hash Sample.tuple_of_set
           5 hint true Sample.state0).
  vm_compute. lia.
Defined.

Lemma import_module_attr_None_witness :
  let w : Typistry.world :=
    {[ "mymod" := Typistry.Importable {[ "N" := Typistry.PyNone ]} ]} in
  Typistry.import_module_attr_or_none PyStr.is_dotted_attr_name w
    Typistry.BeartypeCallHintForwardRefException "mymod.N" Sample.state0
  = (Typistry.logged "mymod" Sample.state0, inr Typistry.PyNone)
  /\ Typistry.import_module_attr PyStr.is_dotted_attr_name w
       Typistry.BeartypeCallHintForwardRefException "mymod.N" Sample.state0
     = (Typistry.logged "mymod" Sample.state0,
        inl (Typistry.BeartypeCallHintForwardRefException
               (Typistry.AttrNotFound "mymod.N"))).
Proof.
  intros w.
  apply (import_module_attr_None PyStr.is_dotted_attr_name w
           Typistry.BeartypeCallHintForwardRefException "mymod.N"
           {[ "N" := Typistry.PyNone ]} Sample.state0).
  - reflexivity.
  - discriminate.
  - reflexivity.
  - reflexivity.
Defined.

Lemma getitem_propagates_module_exception_witness :
  let w1 : Typistry.world := {[ "mymod" := Typistry.Unimportable "ValueError" ]} in
  let w2 : Typistry.world := {[ "mymod" := Typistry.MissingDependency ]} in
  (Sample.__getitem__ w1 "mymod.C" Sample.state0).2
  = inl (Typistry.ModuleScopeException "ValueError")
  /\ (Sample.__getitem__ w2 "mymod.C" Sample.state0).2
     = inl (Typistry.BeartypeCallHintForwardRefException
              (Typistry.ModuleNotFound "mymod")).
Proof.
  intros w1 w2. split.
  - refine (proj1 (getitem_propagates_module_exception
                     PyStr.is_dotted_attr_name w1 Sample.state0 "mymod.C"
                     "ValueError" eq_refl eq_refl _) eq_refl).
    discriminate.
  - refine (proj2 (getitem_propagates_module_exception
                     PyStr.is_dotted_attr_name w2 Sample.state0 "mymod.C"
                     "ValueError" eq_refl eq_refl _) eq_refl).
    discriminate.
Defined.

Lemma getitem_returns_class_or_tuple_witness :
  (exists c, Typistry.PyType Sample.class_C = Typistry.PyType c)
  \/ (exists items,
        Typistry.PyType Sample.class_C = Typistry.PyTuple items
        /\ Typistry.is_hint_nonpep_tuple Sample.is_plain_class items = true).
Proof.
  apply (getitem_returns_class_or_tuple PyStr.is_dotted_attr_name
           Sample.get_object_classname Sample.is_classname_builtin
           Sample.is_plain_class Sample.world_after Sample.state0
           (Typistry.logged "mymod" Sample.state0) "mymod.C"
           (Typistry.PyType Sample.class_C)).
  - apply registry_ok_empty.
  - reflexivity.
Defined.

Lemma register_typistry_tuple_refuses_witness :
  let hint := [Typistry.PyType Sample.class_C; Typistry.PyInt 3] in
  Sample.register_typistry_tuple 1 (Typistry.PyTuple hint) true Sample.state0
  = Some (Sample.state0,
          inl (Typistry._BeartypeDecorBeartypistryException
                 (Typistry.TupleNotNonPep (Typistry.PyTuple hint)))).
Proof.
  intros hint.
  apply (register_typistry_tuple_refuses Sample.PARAM_NAME_TYPISTRY
           Sample.get_object_classname Sample.get_object_class_basename
           Sample.is_class_builtin Sample.is_classname_builtin
           Sample.is_plain_class Sample.py_hash Sample.tuple_of_set
           1 hint true Sample.state0).
  - simpl. lia.
  - reflexivity.
  - vm_compute. lia.
Defined.
